(** * The Elasticsearch sink of the metadata ingestion framework

    A shallow embedding of
    [ingestion/src/metadata/ingestion/sink/elasticsearch.py]: the index
    bootstrap, the record dispatch and the four document builders, followed
    by the properties of the mapping contract that hold of them. *)

From Stdlib Require Import String ZArith List PrimFloat.
From stdpp Require Import gmap strings list.

Open Scope string_scope.
Open Scope list_scope.

#[local] Set Warnings "-clear-no-such-hyp".

(** ** Python values and exceptions *)

(** The exceptions the sink can let escape. [APIError] stands for a failed
    lookup in the metadata store. *)
Inductive PyError : Type :=
  | TypeError
  | KeyError
  | JSONDecodeError
  | APIError.

Inductive result (A : Type) : Type :=
  | Ok (a : A)
  | Raise (e : PyError).
Arguments Ok {A} a.
Arguments Raise {A} e.

#[global] Instance result_ret : MRet result := fun A a => Ok a.
#[global] Instance result_bind : MBind result := fun A B k r =>
  match r with
  | Ok a => k a
  | Raise e => Raise e
  end.

#[global] Instance result_fmap : FMap result := fun A B f r =>
  match r with
  | Ok a => Ok (f a)
  | Raise e => Raise e
  end.

(** [needle in hay] on two [str]: substring test. *)
Fixpoint str_in (needle hay : string) : bool :=
  String.prefix needle hay ||
  match hay with
  | EmptyString => false
  | String _ rest => str_in needle rest
  end.

(** [for x in xs] where [xs] may be [None]: iterating [None] raises. *)
Definition iter {A : Type} (xs : option (list A)) : result (list A) :=
  match xs with
  | Some l => Ok l
  | None => Raise TypeError
  end.

(** A [for] loop whose body may raise. *)
Fixpoint for_each {A S : Type} (body : S -> A -> result S) (xs : list A) (s : S)
  : result S :=
  match xs with
  | [] => Ok s
  | x :: rest => s' ← body s x; for_each body rest s'
  end.

(** JSON documents as [json.loads] returns them. *)
#[local] Unset Elimination Schemes.
Inductive json : Type :=
  | JNull
  | JBool (b : bool)
  | JNum (n : Z)
  | JStr (s : string)
  | JArr (items : list json)
  | JObj (members : list (string * json)).
#[local] Set Elimination Schemes.

(** Truth value of a JSON value: empty containers, zero, [None] and [False]
    are falsy. *)
Definition truthy (v : json) : bool :=
  match v with
  | JNull => false
  | JBool b => b
  | JNum n => negb (n =? 0)%Z
  | JStr s => negb (String.eqb s EmptyString)
  | JArr items => match items with [] => false | _ => true end
  | JObj members => match members with [] => false | _ => true end
  end.

Fixpoint assoc (k : string) (members : list (string * json)) : option json :=
  match members with
  | [] => None
  | (k', v) :: rest => if String.eqb k k' then Some v else assoc k rest
  end.

(** [d[k]]: subscripting anything but a dict with a [str] is a [TypeError],
    a missing key is a [KeyError]. [json.loads] keeps the last of duplicate
    keys, so a parsed dict has none. *)
Definition getitem (d : json) (k : string) : result json :=
  match d with
  | JObj members =>
      match assoc k members with
      | Some v => Ok v
      | None => Raise KeyError
      end
  | _ => Raise TypeError
  end.

(** ** The generated schema classes

    The entity classes of [metadata.generated.schema] carry the fields the
    sink reads. An identifier is kept as the string [str(x.id.__root__)]
    yields, a name as the string under [__root__]. A field is optional
    where the sink tests it for [None] or for truth, and for the tag list,
    the owner and the followers of an entity; the fields the sink reads
    through without a test are taken as set. *)

Record EntityReference : Type := {
  ref_id : string;
  ref_name : string }.

Record TagLabel : Type := { tagFQN : string }.

Record UsageStats : Type := {
  count : Z;
  percentileRank : float }.

Record UsageDetails : Type := {
  dailyStats : UsageStats;
  weeklyStats : UsageStats;
  monthlyStats : UsageStats }.

Module Column.
#[local] Unset Elimination Schemes.
Inductive t : Type := Build {
  name : string;
  description : option string;
  tags : list TagLabel;
  children : option (list t) }.
#[local] Set Elimination Schemes.
End Column.

Module Table.
Record t : Type := {
  id : string;
  name : string;
  fullyQualifiedName : string;
  description : option string;
  database : EntityReference;
  tags : option (list TagLabel);
  columns : list Column.t;
  usageSummary : UsageDetails;
  owner : option EntityReference;
  followers : option (list EntityReference);
  tableType : option string }.
End Table.

Module Topic.
Record t : Type := {
  id : string;
  name : string;
  fullyQualifiedName : string;
  description : option string;
  service : EntityReference;
  tags : option (list TagLabel);
  owner : option EntityReference;
  followers : option (list EntityReference) }.
End Topic.

Module Chart.
Record t : Type := {
  displayName : string;
  description : option string;
  tags : list TagLabel }.
End Chart.

Module Dashboard.
Record t : Type := {
  id : string;
  name : string;
  displayName : string;
  fullyQualifiedName : string;
  description : option string;
  service : EntityReference;
  charts : option (list EntityReference);
  usageSummary : UsageDetails;
  tags : option (list TagLabel);
  owner : option EntityReference;
  followers : option (list EntityReference) }.
End Dashboard.

Module Task.
Record t : Type := {
  name : string;
  displayName : string;
  description : option string;
  tags : list TagLabel }.
End Task.

Module Pipeline.
Record t : Type := {
  id : string;
  name : string;
  displayName : string;
  fullyQualifiedName : string;
  description : option string;
  service : EntityReference;
  tasks : list Task.t;
  tags : option (list TagLabel);
  owner : option EntityReference;
  followers : option (list EntityReference) }.
End Pipeline.

Module Database.
Record t : Type := {
  name : string;
  service : EntityReference }.
End Database.

(** The four service classes share the two fields that are read; the
    service type is kept as the name of its enum member. *)
Module Service.
Record t : Type := {
  name : string;
  serviceType : string }.
End Service.

(** The four kinds of entity the sink indexes. *)
Inductive Entity : Type :=
  | ETable (table : Table.t)
  | ETopic (topic : Topic.t)
  | EDashboard (dashboard : Dashboard.t)
  | EPipeline (pipeline : Pipeline.t).

(** A record handed to [write_record]: an entity of one of the four kinds,
    or any other record with a name. *)
Inductive IngestionRecord : Type :=
  | Indexed (entity : Entity)
  | Other (name : string).

Definition entity_name (e : Entity) : string :=
  match e with
  | ETable t => Table.name t
  | ETopic t => Topic.name t
  | EDashboard d => Dashboard.name d
  | EPipeline p => Pipeline.name p
  end.

Definition record_name (record : IngestionRecord) : string :=
  match record with
  | Indexed e => entity_name e
  | Other n => n
  end.

(** ** The search documents ([metadata.ingestion.models.table_metadata]) *)

(** One weighted phrase of the autocomplete field, [{"input": [...], "weight": w}]. *)
Record SuggestEntry : Type := {
  input : list string;
  weight : Z }.

Module TableESDocument.
Record t : Type := {
  table_id : string;
  database : string;
  service : string;
  service_type : string;
  service_category : string;
  table_name : string;
  suggest : list SuggestEntry;
  description : option string;
  table_type : option string;
  last_updated_timestamp : float;
  column_names : list string;
  column_descriptions : list string;
  monthly_stats : Z;
  monthly_percentile_rank : float;
  weekly_stats : Z;
  weekly_percentile_rank : float;
  daily_stats : Z;
  daily_percentile_rank : float;
  tier : option string;
  tags : list string;
  fqdn : string;
  schema_description : option string;
  owner : string;
  followers : list string }.
End TableESDocument.

Module TopicESDocument.
Record t : Type := {
  topic_id : string;
  service : string;
  service_type : string;
  service_category : string;
  topic_name : string;
  suggest : list SuggestEntry;
  description : option string;
  last_updated_timestamp : float;
  tier : option string;
  tags : list string;
  fqdn : string;
  owner : string;
  followers : list string }.
End TopicESDocument.

Module DashboardESDocument.
Record t : Type := {
  dashboard_id : string;
  service : string;
  service_type : string;
  service_category : string;
  dashboard_name : string;
  chart_names : list string;
  chart_descriptions : list string;
  suggest : list SuggestEntry;
  description : option string;
  last_updated_timestamp : float;
  tier : option string;
  tags : list string;
  fqdn : string;
  owner : string;
  followers : list string;
  monthly_stats : Z;
  monthly_percentile_rank : float;
  weekly_stats : Z;
  weekly_percentile_rank : float;
  daily_stats : Z;
  daily_percentile_rank : float }.
End DashboardESDocument.

Module PipelineESDocument.
Record t : Type := {
  pipeline_id : string;
  service : string;
  service_type : string;
  service_category : string;
  pipeline_name : string;
  task_names : list string;
  task_descriptions : list string;
  suggest : list SuggestEntry;
  description : option string;
  last_updated_timestamp : float;
  tier : option string;
  tags : list string;
  fqdn : string;
  owner : string;
  followers : list string }.
End PipelineESDocument.

(** The body of an index call, [doc.json()], kept as the document itself. *)
Inductive ESDocument : Type :=
  | TableDoc (doc : TableESDocument.t)
  | TopicDoc (doc : TopicESDocument.t)
  | DashboardDoc (doc : DashboardESDocument.t)
  | PipelineDoc (doc : PipelineESDocument.t).

(** ** The metadata store client ([OpenMetadata])

    One finder per entity class the sink asks for. *)
Record OpenMetadata : Type := {
  find_Database : string -> option Database.t;
  find_DatabaseService : string -> option Service.t;
  find_MessagingService : string -> option Service.t;
  find_DashboardService : string -> option Service.t;
  find_PipelineService : string -> option Service.t;
  find_Chart : string -> option Chart.t }.

(** Modelled from the spec: [OpenMetadata.get_by_id] of
    [metadata.ingestion.ometa.ometa_api], which is not among the sources. A
    lookup that finds nothing propagates as an exception (section 4.3). *)
Definition get_by_id {A : Type} (entity : string -> option A) (entity_id : string)
  : result A :=
  match entity entity_id with
  | Some e => Ok e
  | None => Raise APIError
  end.

(** ** The search engine client ([Elasticsearch])

    The client library is not among the sources. Its five calls are
    modelled from the specification's downstream contract (section 6), on
    a working engine: every call is answered. What the sink is proved to
    do is read off the calls it issues. *)

Inductive es_call : Type :=
  | IndicesExists (index : string)
  | IndicesGetMapping
  | IndicesPutMapping (index : string) (body : string)
  | IndicesCreate (index : string) (body : string)
  | Index (index : string) (id : string) (body : ESDocument)
  | Close.

(** The cluster behind the client: for every index that exists its field
    mappings, and the stored documents by index and identifier. *)
Record Cluster : Type := {
  indices : gmap string json;
  documents : gmap (string * string) ESDocument }.

(** The client, with the calls issued so far, oldest first. *)
Record Elasticsearch : Type := {
  host : string;
  port : Z;
  http_auth : option (string * option string);
  cluster : Cluster;
  calls : list es_call }.

Definition issue (c : es_call) (es : Elasticsearch) : Elasticsearch :=
  {| host := host es; port := port es; http_auth := http_auth es;
     cluster := cluster es; calls := calls es ++ [c] |}.

Definition with_cluster (cl : Cluster) (es : Elasticsearch) : Elasticsearch :=
  {| host := host es; port := port es; http_auth := http_auth es;
     cluster := cl; calls := calls es |}.

(** Modelled from the spec: [indices.exists(index)], the index-exists
    check of section 6. *)
Definition indices_exists (index : string) (es : Elasticsearch)
  : bool * Elasticsearch :=
  (bool_decide (is_Some (indices (cluster es) !! index)),
   issue (IndicesExists index) es).

(** Modelled from the spec: [indices.get_mapping()] of section 6, every
    index with its [{"mappings": ...}]. *)
Definition indices_get_mapping (es : Elasticsearch)
  : gmap string json * Elasticsearch :=
  ((fun m => JObj [("mappings", m)]) <$> indices (cluster es),
   issue IndicesGetMapping es).

(** Modelled from the spec: [index(index, id, body)], the
    document-index-with-explicit-ID call of section 6. It creates or
    replaces the document under [id] (section 4.2); an index that does not
    exist yet is auto-created without mappings (section 4.1). What the
    engine adds to the mappings of an index for the fields of a document is
    not modelled. *)
Definition es_index (index id : string) (body : ESDocument) (es : Elasticsearch)
  : Elasticsearch :=
  with_cluster
    {| indices :=
         match indices (cluster es) !! index with
         | Some _ => indices (cluster es)
         | None => <[index := JObj []]> (indices (cluster es))
         end;
       documents := <[(index, id) := body]> (documents (cluster es)) |}
    (issue (Index index id body) es).

Definition es_close (es : Elasticsearch) : Elasticsearch := issue Close es.

(** ** Configuration *)

Record ElasticSearchConfig : Type := {
  es_host : string;
  es_port : Z;
  es_username : option string;
  es_password : option string;
  index_tables : option bool;
  index_topics : option bool;
  index_dashboards : option bool;
  index_pipelines : option bool;
  table_index_name : string;
  topic_index_name : string;
  dashboard_index_name : string;
  pipeline_index_name : string }.

(** Truth value of an [Optional[bool]] and of an [Optional[str]]. *)
Definition flag_set (flag : option bool) : bool := default false flag.

Definition str_set (s : option string) : bool :=
  match s with
  | Some v => negb (String.eqb v EmptyString)
  | None => false
  end.

Inductive entity_kind : Type := KTable | KTopic | KDashboard | KPipeline.

Definition enabled (config : ElasticSearchConfig) (k : entity_kind) : option bool :=
  match k with
  | KTable => index_tables config
  | KTopic => index_topics config
  | KDashboard => index_dashboards config
  | KPipeline => index_pipelines config
  end.

Definition index_name_of (config : ElasticSearchConfig) (k : entity_kind) : string :=
  match k with
  | KTable => table_index_name config
  | KTopic => topic_index_name config
  | KDashboard => dashboard_index_name config
  | KPipeline => pipeline_index_name config
  end.

Definition kind_of (e : Entity) : entity_kind :=
  match e with
  | ETable _ => KTable
  | ETopic _ => KTopic
  | EDashboard _ => KDashboard
  | EPipeline _ => KPipeline
  end.

(** ** The sink *)

Module ElasticsearchSink.

(** The fields of [self]; [status] holds the names handed to
    [SinkStatus.records_written], oldest first. *)
Record t : Type := {
  config : ElasticSearchConfig;
  metadata : OpenMetadata;
  elasticsearch_client : Elasticsearch;
  status : list string }.

Definition with_client (es : Elasticsearch) (self : t) : t :=
  {| config := config self; metadata := metadata self;
     elasticsearch_client := es; status := status self |}.

Definition records_written (name : string) (self : t) : t :=
  {| config := config self; metadata := metadata self;
     elasticsearch_client := elasticsearch_client self;
     status := status self ++ [name] |}.

(** A method that mutates [self] and may raise: the state it leaves behind
    is kept also when it raises. *)
Definition M (A : Type) : Type := t -> result A * t.

#[global] Instance M_ret : MRet M := fun A a self => (Ok a, self).
#[global] Instance M_bind : MBind M := fun A B k m self =>
  match m self with
  | (Ok a, self') => k a self'
  | (Raise e, self') => (Raise e, self')
  end.

Definition lift {A : Type} (r : result A) : M A := fun self => (r, self).

Definition client {A : Type} (call : Elasticsearch -> A * Elasticsearch) : M A :=
  fun self =>
    let '(a, es) := call (elasticsearch_client self) in (Ok a, with_client es self).

Definition client_ (call : Elasticsearch -> Elasticsearch) : M unit :=
  fun self => (Ok tt, with_client (call (elasticsearch_client self)) self).

Definition when (b : bool) (m : M unit) : M unit := if b then m else mret tt.

Definition get_self : M t := fun self => (Ok self, self).

Section Bootstrap.

(** [json.loads] and [json.dumps], and the four mapping templates of
    [elasticsearch_constants]. *)
Variable json_loads : string -> result json.
Variable json_dumps : json -> string.
Variable TABLE_ELASTICSEARCH_INDEX_MAPPING : string.
Variable TOPIC_ELASTICSEARCH_INDEX_MAPPING : string.
Variable DASHBOARD_ELASTICSEARCH_INDEX_MAPPING : string.
Variable PIPELINE_ELASTICSEARCH_INDEX_MAPPING : string.

(** What the engine reads in a request body: the JSON value it holds, and
    what that value has under [mappings]; an empty object when there is
    none. *)
Definition body_json (body : string) : json :=
  match json_loads body with
  | Ok d => d
  | Raise _ => JObj []
  end.

Definition body_mappings (body : string) : json :=
  match getitem (body_json body) "mappings" with
  | Ok m => m
  | Raise _ => JObj []
  end.

(** Modelled from the spec: [indices.put_mapping(index, body)] of section
    6, called on an index without mappings, which takes the body as its
    mappings. *)
Definition indices_put_mapping (index body : string) (es : Elasticsearch)
  : Elasticsearch :=
  with_cluster
    {| indices := <[index := body_json body]> (indices (cluster es));
       documents := documents (cluster es) |}
    (issue (IndicesPutMapping index body) es).

(** Modelled from the spec: [indices.create(index, body)] of section 6, on
    a working engine that accepts the body: the index exists afterwards,
    with the mappings the body holds. A create call that the engine refuses
    is not modelled. *)
Definition indices_create (index body : string) (es : Elasticsearch)
  : Elasticsearch :=
  with_cluster
    {| indices := <[index := body_mappings body]> (indices (cluster es));
       documents := documents (cluster es) |}
    (issue (IndicesCreate index body) es).

Definition _check_or_create_index (index_name es_mapping : string) : M unit :=
  found ← client (indices_exists index_name);
  if (found : bool) then
    mapping ← client indices_get_mapping;
    entry ← lift (match (mapping : gmap string json) !! index_name with
                  | Some e => Ok e
                  | None => Raise KeyError
                  end);
    mappings ← lift (getitem entry "mappings");
    if negb (truthy mappings) then
      es_mapping_dict ← lift (json_loads es_mapping);
      es_mappings ← lift (getitem es_mapping_dict "mappings");
      properties ← lift (getitem es_mappings "properties");
      let es_mapping_update_dict := JObj [("properties", properties)] in
      client_ (indices_put_mapping index_name (json_dumps es_mapping_update_dict))
    else mret tt
  else
    client_ (indices_create index_name es_mapping).

(** The constructor: [server] is the cluster the new client talks to. The
    state is returned also when a bootstrap raises, for what was issued
    before stays issued. *)
Definition __init__ (config : ElasticSearchConfig) (metadata : OpenMetadata)
  (server : Cluster) : result unit * t :=
  let http_auth :=
    if str_set (es_username config)
    then Some (default EmptyString (es_username config), es_password config)
    else None in
  let self :=
    {| config := config;
       metadata := metadata;
       elasticsearch_client :=
         {| host := es_host config; port := es_port config;
            http_auth := http_auth; cluster := server; calls := [] |};
       status := [] |} in
  (when (flag_set (index_tables config))
     (_check_or_create_index (table_index_name config)
        TABLE_ELASTICSEARCH_INDEX_MAPPING);;
   when (flag_set (index_topics config))
     (_check_or_create_index (topic_index_name config)
        TOPIC_ELASTICSEARCH_INDEX_MAPPING);;
   when (flag_set (index_dashboards config))
     (_check_or_create_index (dashboard_index_name config)
        DASHBOARD_ELASTICSEARCH_INDEX_MAPPING);;
   when (flag_set (index_pipelines config))
     (_check_or_create_index (pipeline_index_name config)
        PIPELINE_ELASTICSEARCH_INDEX_MAPPING)) self.

End Bootstrap.

(** *** Document builders *)

(** The loop every builder runs over the entity's own tag list: a tag whose
    name contains "Tier" is assigned to [tier], any other is added to the
    set. *)
Definition tier_step (acc : option string * gset string) (tag : TagLabel)
  : option string * gset string :=
  let '(tier, tags) := acc in
  if str_in "Tier" (tagFQN tag)
  then (Some (tagFQN tag), tags)
  else (tier, {[tagFQN tag]} ∪ tags).

(** [for col_tag in xs: tags.add(col_tag.tagFQN)] *)
Definition add_tags (xs : list TagLabel) (tags : gset string) : gset string :=
  fold_left (fun tags col_tag => {[tagFQN col_tag]} ∪ tags) xs tags.

(** [str(x.owner.id.__root__) if x.owner is not None else the empty string] *)
Definition owner_id (owner : option EntityReference) : string :=
  match owner with
  | Some o => ref_id o
  | None => EmptyString
  end.

(** The follower loop; a follower list object is truthy whatever it holds. *)
Definition follower_ids (followers : option (list EntityReference)) : list string :=
  match followers with
  | Some fs => fold_left (fun acc follower => acc ++ [ref_id follower]) fs []
  | None => []
  end.

Definition parse_state : Type := list string * list string * gset string.

(** The body of the loop of [_parse_columns], for one column. *)
Fixpoint _parse_column (parent_column : option string) (column : Column.t)
  (acc : parse_state) {struct column} : parse_state :=
  let '(column_names, column_descriptions, tags) := acc in
  let col_name :=
    match parent_column with
    | Some parent => parent +:+ "." +:+ Column.name column
    | None => Column.name column
    end in
  let column_names := column_names ++ [col_name] in
  let column_descriptions :=
    match Column.description column with
    | Some d => column_descriptions ++ [d]
    | None => column_descriptions
    end in
  let tags :=
    if (0 <? length (Column.tags column))%nat
    then add_tags (Column.tags column) tags
    else tags in
  match Column.children column with
  | Some children =>
      (fix loop (columns : list Column.t) (acc : parse_state) : parse_state :=
         match columns with
         | [] => acc
         | child :: rest =>
             loop rest (_parse_column (Some (Column.name column)) child acc)
         end) children (column_names, column_descriptions, tags)
  | None => (column_names, column_descriptions, tags)
  end.

(** The three accumulators are the lists and the set the caller passed in,
    returned as the calls leave them. *)
Definition _parse_columns (columns : list Column.t) (parent_column : option string)
  (acc : parse_state) : parse_state :=
  fold_left (fun acc column => _parse_column parent_column column acc) columns acc.

Definition _create_table_es_doc (self : t) (now : float) (table : Table.t)
  : result TableESDocument.t :=
  let fqdn := Table.fullyQualifiedName table in
  let table_name := Table.name table in
  let suggest :=
    [ {| input := [fqdn]; weight := 5 |};
      {| input := [table_name]; weight := 10 |} ] in
  let timestamp := now in
  table_tags ← iter (Table.tags table);
  let '(tier, tags) := fold_left tier_step table_tags (None, ∅) in
  let '(column_names, column_descriptions, tags) :=
    _parse_columns (Table.columns table) None ([], [], tags) in
  database_entity ← get_by_id (find_Database (metadata self))
                      (ref_id (Table.database table));
  service_entity ← get_by_id (find_DatabaseService (metadata self))
                     (ref_id (Database.service database_entity));
  let table_owner := owner_id (Table.owner table) in
  let table_followers := follower_ids (Table.followers table) in
  let table_type := Table.tableType table in
  mret
    {| TableESDocument.table_id := Table.id table;
       TableESDocument.database := Database.name database_entity;
       TableESDocument.service := Service.name service_entity;
       TableESDocument.service_type := Service.serviceType service_entity;
       TableESDocument.service_category := "databaseService";
       TableESDocument.table_name := Table.name table;
       TableESDocument.suggest := suggest;
       TableESDocument.description := Table.description table;
       TableESDocument.table_type := table_type;
       TableESDocument.last_updated_timestamp := timestamp;
       TableESDocument.column_names := column_names;
       TableESDocument.column_descriptions := column_descriptions;
       TableESDocument.monthly_stats :=
         count (monthlyStats (Table.usageSummary table));
       TableESDocument.monthly_percentile_rank :=
         percentileRank (monthlyStats (Table.usageSummary table));
       TableESDocument.weekly_stats :=
         count (weeklyStats (Table.usageSummary table));
       TableESDocument.weekly_percentile_rank :=
         percentileRank (weeklyStats (Table.usageSummary table));
       TableESDocument.daily_stats :=
         count (dailyStats (Table.usageSummary table));
       TableESDocument.daily_percentile_rank :=
         percentileRank (dailyStats (Table.usageSummary table));
       TableESDocument.tier := tier;
       TableESDocument.tags := elements tags;
       TableESDocument.fqdn := fqdn;
       TableESDocument.schema_description := None;
       TableESDocument.owner := table_owner;
       TableESDocument.followers := table_followers |}.

Definition _create_topic_es_doc (self : t) (now : float) (topic : Topic.t)
  : result TopicESDocument.t :=
  let fqdn := Topic.fullyQualifiedName topic in
  let topic_name := Topic.name topic in
  let suggest :=
    [ {| input := [fqdn]; weight := 5 |};
      {| input := [topic_name]; weight := 10 |} ] in
  let timestamp := now in
  service_entity ← get_by_id (find_MessagingService (metadata self))
                     (ref_id (Topic.service topic));
  let topic_owner := owner_id (Topic.owner topic) in
  let topic_followers := follower_ids (Topic.followers topic) in
  topic_tags ← iter (Topic.tags topic);
  let '(tier, tags) := fold_left tier_step topic_tags (None, ∅) in
  mret
    {| TopicESDocument.topic_id := Topic.id topic;
       TopicESDocument.service := Service.name service_entity;
       TopicESDocument.service_type := Service.serviceType service_entity;
       TopicESDocument.service_category := "messagingService";
       TopicESDocument.topic_name := Topic.name topic;
       TopicESDocument.suggest := suggest;
       TopicESDocument.description := Topic.description topic;
       TopicESDocument.last_updated_timestamp := timestamp;
       TopicESDocument.tier := tier;
       TopicESDocument.tags := elements tags;
       TopicESDocument.fqdn := fqdn;
       TopicESDocument.owner := topic_owner;
       TopicESDocument.followers := topic_followers |}.

(** [if chart_refs:] skips [None] and the empty list alike. *)
Definition _get_charts (self : t) (chart_refs : option (list EntityReference))
  : result (list Chart.t) :=
  match chart_refs with
  | Some ((_ :: _) as refs) =>
      for_each
        (fun charts chart_ref =>
           chart ← get_by_id (find_Chart (metadata self)) (ref_id chart_ref);
           mret (charts ++ [chart]))
        refs []
  | _ => Ok []
  end.

Definition chart_step (acc : parse_state) (chart : Chart.t) : parse_state :=
  let '(chart_names, chart_descriptions, tags) := acc in
  let chart_names := chart_names ++ [Chart.displayName chart] in
  let chart_descriptions :=
    match Chart.description chart with
    | Some d => chart_descriptions ++ [d]
    | None => chart_descriptions
    end in
  let tags :=
    if (0 <? length (Chart.tags chart))%nat
    then add_tags (Chart.tags chart) tags
    else tags in
  (chart_names, chart_descriptions, tags).

Definition _create_dashboard_es_doc (self : t) (now : float)
  (dashboard : Dashboard.t) : result DashboardESDocument.t :=
  let fqdn := Dashboard.fullyQualifiedName dashboard in
  let dashboard_name := Dashboard.name dashboard in
  let suggest := [ {| input := [Dashboard.displayName dashboard]; weight := 10 |} ] in
  let timestamp := now in
  service_entity ← get_by_id (find_DashboardService (metadata self))
                     (ref_id (Dashboard.service dashboard));
  let dashboard_owner := owner_id (Dashboard.owner dashboard) in
  let dashboard_followers := follower_ids (Dashboard.followers dashboard) in
  dashboard_tags ← iter (Dashboard.tags dashboard);
  let '(tier, tags) := fold_left tier_step dashboard_tags (None, ∅) in
  charts ← _get_charts self (Dashboard.charts dashboard);
  let '(chart_names, chart_descriptions, tags) :=
    fold_left chart_step charts ([], [], tags) in
  mret
    {| DashboardESDocument.dashboard_id := Dashboard.id dashboard;
       DashboardESDocument.service := Service.name service_entity;
       DashboardESDocument.service_type := Service.serviceType service_entity;
       DashboardESDocument.service_category := "dashboardService";
       DashboardESDocument.dashboard_name := Dashboard.displayName dashboard;
       DashboardESDocument.chart_names := chart_names;
       DashboardESDocument.chart_descriptions := chart_descriptions;
       DashboardESDocument.suggest := suggest;
       DashboardESDocument.description := Dashboard.description dashboard;
       DashboardESDocument.last_updated_timestamp := timestamp;
       DashboardESDocument.tier := tier;
       DashboardESDocument.tags := elements tags;
       DashboardESDocument.fqdn := fqdn;
       DashboardESDocument.owner := dashboard_owner;
       DashboardESDocument.followers := dashboard_followers;
       DashboardESDocument.monthly_stats :=
         count (monthlyStats (Dashboard.usageSummary dashboard));
       DashboardESDocument.monthly_percentile_rank :=
         percentileRank (monthlyStats (Dashboard.usageSummary dashboard));
       DashboardESDocument.weekly_stats :=
         count (weeklyStats (Dashboard.usageSummary dashboard));
       DashboardESDocument.weekly_percentile_rank :=
         percentileRank (weeklyStats (Dashboard.usageSummary dashboard));
       DashboardESDocument.daily_stats :=
         count (dailyStats (Dashboard.usageSummary dashboard));
       DashboardESDocument.daily_percentile_rank :=
         percentileRank (dailyStats (Dashboard.usageSummary dashboard)) |}.

(** What iterating a [Task] yields: every field as a (name, value) tuple. *)
Inductive field_value : Type :=
  | FStr (s : string)
  | FOptStr (s : option string)
  | FTags (l : list TagLabel).

Definition Task_items (task : Task.t) : list (string * field_value) :=
  [ ("name", FStr (Task.name task));
    ("displayName", FStr (Task.displayName task));
    ("description", FOptStr (Task.description task));
    ("tags", FTags (Task.tags task)) ].

(** [s == item] for a set and a tuple: values of the two types are never
    equal. *)
Definition set_eq_tuple (s : gset string) (item : string * field_value) : bool :=
  false.

(** [s in task]: the model class has no [__contains__], so the test walks
    the model's items and compares each with [s]. *)
Definition set_in_model (s : gset string) (items : list (string * field_value))
  : bool :=
  existsb (set_eq_tuple s) items.

Definition task_step (acc : parse_state) (task : Task.t) : parse_state :=
  let '(task_names, task_descriptions, tags) := acc in
  let task_names := task_names ++ [Task.displayName task] in
  let task_descriptions :=
    match Task.description task with
    | Some d => task_descriptions ++ [d]
    | None => task_descriptions
    end in
  let tags :=
    if set_in_model tags (Task_items task) && (0 <? length (Task.tags task))%nat
    then add_tags (Task.tags task) tags
    else tags in
  (task_names, task_descriptions, tags).

Definition _create_pipeline_es_doc (self : t) (now : float)
  (pipeline : Pipeline.t) : result PipelineESDocument.t :=
  let fqdn := Pipeline.fullyQualifiedName pipeline in
  let suggest := [ {| input := [Pipeline.displayName pipeline]; weight := 10 |} ] in
  let timestamp := now in
  service_entity ← get_by_id (find_PipelineService (metadata self))
                     (ref_id (Pipeline.service pipeline));
  let pipeline_owner := owner_id (Pipeline.owner pipeline) in
  let pipeline_followers := follower_ids (Pipeline.followers pipeline) in
  pipeline_tags ← iter (Pipeline.tags pipeline);
  let '(tier, tags) := fold_left tier_step pipeline_tags (None, ∅) in
  let tasks := Pipeline.tasks pipeline in
  let '(task_names, task_descriptions, tags) :=
    fold_left task_step tasks ([], [], tags) in
  mret
    {| PipelineESDocument.pipeline_id := Pipeline.id pipeline;
       PipelineESDocument.service := Service.name service_entity;
       PipelineESDocument.service_type := Service.serviceType service_entity;
       PipelineESDocument.service_category := "pipelineService";
       PipelineESDocument.pipeline_name := Pipeline.displayName pipeline;
       PipelineESDocument.task_names := task_names;
       PipelineESDocument.task_descriptions := task_descriptions;
       PipelineESDocument.suggest := suggest;
       PipelineESDocument.description := Pipeline.description pipeline;
       PipelineESDocument.last_updated_timestamp := timestamp;
       PipelineESDocument.tier := tier;
       PipelineESDocument.tags := elements tags;
       PipelineESDocument.fqdn := fqdn;
       PipelineESDocument.owner := pipeline_owner;
       PipelineESDocument.followers := pipeline_followers |}.

(** *** Record dispatch *)

(** [now] is what [time.time()] reads while the document is built. The
    record is of one kind only, so at most one of the four tests of the
    source holds. *)
Definition write_record (now : float) (record : IngestionRecord) : M unit :=
  self ← get_self;
  (match record with
   | Indexed (ETable table) =>
       table_doc ← lift (_create_table_es_doc self now table);
       client_ (es_index (table_index_name (config self))
                  (TableESDocument.table_id table_doc) (TableDoc table_doc))
   | Indexed (ETopic topic) =>
       topic_doc ← lift (_create_topic_es_doc self now topic);
       client_ (es_index (topic_index_name (config self))
                  (TopicESDocument.topic_id topic_doc) (TopicDoc topic_doc))
   | Indexed (EDashboard dashboard) =>
       dashboard_doc ← lift (_create_dashboard_es_doc self now dashboard);
       client_ (es_index (dashboard_index_name (config self))
                  (DashboardESDocument.dashboard_id dashboard_doc)
                  (DashboardDoc dashboard_doc))
   | Indexed (EPipeline pipeline) =>
       pipeline_doc ← lift (_create_pipeline_es_doc self now pipeline);
       client_ (es_index (pipeline_index_name (config self))
                  (PipelineESDocument.pipeline_id pipeline_doc)
                  (PipelineDoc pipeline_doc))
   | Other _ => mret tt
   end : M unit);;
  ((fun self => (Ok tt, records_written (record_name record) self)) : M unit).

Definition get_status (self : t) : list string := status self.

Definition close : M unit := client_ es_close.

End ElasticsearchSink.

Import ElasticsearchSink.

(** ** The four builders seen as one *)

Definition create_es_doc (self : t) (now : float) (e : Entity) : result ESDocument :=
  match e with
  | ETable table => TableDoc <$> _create_table_es_doc self now table
  | ETopic topic => TopicDoc <$> _create_topic_es_doc self now topic
  | EDashboard dashboard => DashboardDoc <$> _create_dashboard_es_doc self now dashboard
  | EPipeline pipeline => PipelineDoc <$> _create_pipeline_es_doc self now pipeline
  end.

Definition own_tags (e : Entity) : option (list TagLabel) :=
  match e with
  | ETable t => Table.tags t
  | ETopic t => Topic.tags t
  | EDashboard d => Dashboard.tags d
  | EPipeline p => Pipeline.tags p
  end.

Definition own_owner (e : Entity) : option EntityReference :=
  match e with
  | ETable t => Table.owner t
  | ETopic t => Topic.owner t
  | EDashboard d => Dashboard.owner d
  | EPipeline p => Pipeline.owner p
  end.

Definition own_followers (e : Entity) : option (list EntityReference) :=
  match e with
  | ETable t => Table.followers t
  | ETopic t => Topic.followers t
  | EDashboard d => Dashboard.followers d
  | EPipeline p => Pipeline.followers p
  end.

Definition doc_id (doc : ESDocument) : string :=
  match doc with
  | TableDoc d => TableESDocument.table_id d
  | TopicDoc d => TopicESDocument.topic_id d
  | DashboardDoc d => DashboardESDocument.dashboard_id d
  | PipelineDoc d => PipelineESDocument.pipeline_id d
  end.

Definition doc_tier (doc : ESDocument) : option string :=
  match doc with
  | TableDoc d => TableESDocument.tier d
  | TopicDoc d => TopicESDocument.tier d
  | DashboardDoc d => DashboardESDocument.tier d
  | PipelineDoc d => PipelineESDocument.tier d
  end.

Definition doc_tags (doc : ESDocument) : list string :=
  match doc with
  | TableDoc d => TableESDocument.tags d
  | TopicDoc d => TopicESDocument.tags d
  | DashboardDoc d => DashboardESDocument.tags d
  | PipelineDoc d => PipelineESDocument.tags d
  end.

Definition doc_owner (doc : ESDocument) : string :=
  match doc with
  | TableDoc d => TableESDocument.owner d
  | TopicDoc d => TopicESDocument.owner d
  | DashboardDoc d => DashboardESDocument.owner d
  | PipelineDoc d => PipelineESDocument.owner d
  end.

Definition doc_followers (doc : ESDocument) : list string :=
  match doc with
  | TableDoc d => TableESDocument.followers d
  | TopicDoc d => TopicESDocument.followers d
  | DashboardDoc d => DashboardESDocument.followers d
  | PipelineDoc d => PipelineESDocument.followers d
  end.

Definition doc_suggest (doc : ESDocument) : list SuggestEntry :=
  match doc with
  | TableDoc d => TableESDocument.suggest d
  | TopicDoc d => TopicESDocument.suggest d
  | DashboardDoc d => DashboardESDocument.suggest d
  | PipelineDoc d => PipelineESDocument.suggest d
  end.

(** The charts a dashboard refers to, as the store has them; [None] when
    one of them is missing. *)
Definition charts_of (self : t) (dashboard : Dashboard.t) : option (list Chart.t) :=
  mapM (fun chart_ref => find_Chart (metadata self) (ref_id chart_ref))
    (default [] (Dashboard.charts dashboard)).

(** Every lookup the builder of [e] makes in the metadata store finds its
    entity. *)
Definition lookups_succeed (self : t) (e : Entity) : bool :=
  match e with
  | ETable t =>
      match find_Database (metadata self) (ref_id (Table.database t)) with
      | Some db =>
          bool_decide (is_Some (find_DatabaseService (metadata self)
                                  (ref_id (Database.service db))))
      | None => false
      end
  | ETopic t =>
      bool_decide (is_Some (find_MessagingService (metadata self)
                              (ref_id (Topic.service t))))
  | EDashboard d =>
      bool_decide (is_Some (find_DashboardService (metadata self)
                              (ref_id (Dashboard.service d))))
      && bool_decide (is_Some (charts_of self d))
  | EPipeline p =>
      bool_decide (is_Some (find_PipelineService (metadata self)
                              (ref_id (Pipeline.service p))))
  end.

(** ** The mapping contract in its own words *)

Definition tier_like (tag : TagLabel) : bool := str_in "Tier" (tagFQN tag).

Definition fqns (tags : list TagLabel) : list string := map tagFQN tags.

(** The tier-like tags of a tag list and the others, in the order of the
    list. *)
Definition tier_tags (tags : list TagLabel) : list string :=
  fqns (List.filter tier_like tags).

Definition plain_tags (tags : list TagLabel) : list string :=
  fqns (List.filter (fun tag => negb (tier_like tag)) tags).

(** The columns of a forest in pre-order, each with the name its parent
    handed down. *)
Fixpoint column_nodes (parent : option string) (column : Column.t)
  : list (option string * Column.t) :=
  (parent, column) ::
  match Column.children column with
  | Some children => flat_map (column_nodes (Some (Column.name column))) children
  | None => []
  end.

Definition forest_nodes (parent : option string) (columns : list Column.t)
  : list (option string * Column.t) :=
  flat_map (column_nodes parent) columns.

(** The name a node is listed under: its own, after its parent's own name
    and a dot when it has a parent. *)
Definition listed_name (node : option string * Column.t) : string :=
  match fst node with
  | Some parent => parent +:+ "." +:+ Column.name (snd node)
  | None => Column.name (snd node)
  end.

(** The same forest with every column under its full dotted path from the
    root, as the specification words it. *)
Fixpoint column_paths (prefix : option string) (column : Column.t) : list string :=
  let path :=
    match prefix with
    | Some p => p +:+ "." +:+ Column.name column
    | None => Column.name column
    end in
  path ::
  match Column.children column with
  | Some children => flat_map (column_paths (Some path)) children
  | None => []
  end.

Definition spec_column_names (columns : list Column.t) : list string :=
  flat_map (column_paths None) columns.

(** Tags carried below the entity itself: by the columns of a table, the
    charts of a dashboard, the tasks of a pipeline. *)
Definition node_description (node : option string * Column.t) : option string :=
  Column.description (snd node).

Definition node_tags (node : option string * Column.t) : list string :=
  fqns (Column.tags (snd node)).

Definition column_tags (columns : list Column.t) : list string :=
  flat_map node_tags (forest_nodes None columns).

Definition chart_tags (charts : list Chart.t) : list string :=
  flat_map (fun chart => fqns (Chart.tags chart)) charts.

Definition task_tags (tasks : list Task.t) : list string :=
  flat_map (fun task => fqns (Task.tags task)) tasks.

Definition carried_below (self : t) (e : Entity) : list string :=
  match e with
  | ETable t => column_tags (Table.columns t)
  | ETopic _ => []
  | EDashboard d => chart_tags (default [] (charts_of self d))
  | EPipeline p => task_tags (Pipeline.tasks p)
  end.

(** Of these, the ones the builder of [e] adds to the tag set. *)
Definition merged_below (self : t) (e : Entity) : list string :=
  match e with
  | EPipeline _ => []
  | _ => carried_below self e
  end.

(** What a pass over [nodes] adds to the three accumulators. *)
Definition parsed (nodes : list (option string * Column.t)) (acc : parse_state)
  : parse_state :=
  let '(ns, ds, ts) := acc in
  (ns ++ map listed_name nodes,
   ds ++ omap node_description nodes,
   ts ∪ list_to_set (flat_map node_tags nodes)).

(** The suggest list the contract asks of an entity. *)
Definition suggest_of (e : Entity) : list SuggestEntry :=
  match e with
  | ETable t =>
      [ {| input := [Table.fullyQualifiedName t]; weight := 5 |};
        {| input := [Table.name t]; weight := 10 |} ]
  | ETopic t =>
      [ {| input := [Topic.fullyQualifiedName t]; weight := 5 |};
        {| input := [Topic.name t]; weight := 10 |} ]
  | EDashboard d => [ {| input := [Dashboard.displayName d]; weight := 10 |} ]
  | EPipeline p => [ {| input := [Pipeline.displayName p]; weight := 10 |} ]
  end.

Definition entity_id (e : Entity) : string :=
  match e with
  | ETable t => Table.id t
  | ETopic t => Topic.id t
  | EDashboard d => Dashboard.id d
  | EPipeline p => Pipeline.id p
  end.

(** Induction over a column tree, with the hypothesis for every child. *)
Fixpoint Column_ind (P : Column.t -> Prop)
  (Hleaf : forall n d ts, P (Column.Build n d ts None))
  (Hnode : forall n d ts cs, Forall P cs -> P (Column.Build n d ts (Some cs)))
  (c : Column.t) {struct c} : P c :=
  match c with
  | Column.Build n d ts None => Hleaf n d ts
  | Column.Build n d ts (Some cs) =>
      Hnode n d ts cs
        ((fix all (l : list Column.t) : Forall P l :=
            match l with
            | [] => @List.Forall_nil _ P
            | x :: r => @List.Forall_cons _ P x r (Column_ind P Hleaf Hnode x) (all r)
            end) cs)
  end.

(** The index an admin call names. *)
Definition call_index (c : es_call) : option string :=
  match c with
  | IndicesExists index => Some index
  | IndicesGetMapping => None
  | IndicesPutMapping index _ => Some index
  | IndicesCreate index _ => Some index
  | Index index _ _ => Some index
  | Close => None
  end.

Definition is_index_call_on (index : string) (c : es_call) : bool :=
  match c with
  | Index i _ _ => String.eqb i index
  | _ => false
  end.

(** A method leaves the index [name] alone: it issues no call that names it
    and the cluster keeps what it had under it. *)
Definition leaves_alone (name : string) (m : M unit) : Prop :=
  forall self,
    let self' := snd (m self) in
    config self' = config self
    /\ (exists new,
          calls (elasticsearch_client self') = calls (elasticsearch_client self) ++ new
          /\ Forall (fun c => call_index c <> Some name) new)
    /\ indices (cluster (elasticsearch_client self')) !! name
       = indices (cluster (elasticsearch_client self)) !! name.

(** ** Sample data *)

Module Sample.

Definition clock : float := 1636000000%float.

Definition stats0 : UsageStats := {| count := 0; percentileRank := 0%float |}.

Definition usage0 : UsageDetails :=
  {| dailyStats := stats0; weeklyStats := stats0; monthlyStats := stats0 |}.

Definition label (fqn : string) : TagLabel := {| tagFQN := fqn |}.

Definition reference (id name : string) : EntityReference :=
  {| ref_id := id; ref_name := name |}.

Definition revenue_chart : Chart.t :=
  {| Chart.displayName := "Revenue";
     Chart.description := Some "Revenue by month";
     Chart.tags := [label "Tier.Tier1"] |}.

Definition store : OpenMetadata :=
  {| find_Database := fun id =>
       if String.eqb id "db-1"
       then Some {| Database.name := "sales";
                    Database.service := reference "svc-1" "mysql" |}
       else None;
     find_DatabaseService := fun id =>
       if String.eqb id "svc-1"
       then Some {| Service.name := "mysql"; Service.serviceType := "MySQL" |}
       else None;
     find_MessagingService := fun id =>
       if String.eqb id "svc-2"
       then Some {| Service.name := "kafka"; Service.serviceType := "Kafka" |}
       else None;
     find_DashboardService := fun id =>
       if String.eqb id "svc-3"
       then Some {| Service.name := "superset"; Service.serviceType := "Superset" |}
       else None;
     find_PipelineService := fun id =>
       if String.eqb id "svc-4"
       then Some {| Service.name := "airflow"; Service.serviceType := "Airflow" |}
       else None;
     find_Chart := fun id =>
       if String.eqb id "chart-1" then Some revenue_chart else None |}.

(** The configuration with every default of [ElasticSearchConfig]. *)
Definition defaults : ElasticSearchConfig :=
  {| es_host := "localhost";
     es_port := 9200;
     es_username := None;
     es_password := None;
     index_tables := Some true;
     index_topics := Some true;
     index_dashboards := Some true;
     index_pipelines := Some true;
     table_index_name := "table_search_index";
     topic_index_name := "topic_search_index";
     dashboard_index_name := "dashboard_search_index";
     pipeline_index_name := "pipeline_search_index" |}.

(** The defaults with the indexing of tables switched off. *)
Definition tables_off : ElasticSearchConfig :=
  {| es_host := "localhost";
     es_port := 9200;
     es_username := None;
     es_password := None;
     index_tables := Some false;
     index_topics := Some true;
     index_dashboards := Some true;
     index_pipelines := Some true;
     table_index_name := "table_search_index";
     topic_index_name := "topic_search_index";
     dashboard_index_name := "dashboard_search_index";
     pipeline_index_name := "pipeline_search_index" |}.

Definition fresh_cluster : Cluster := {| indices := ∅; documents := ∅ |}.

Definition sink_with (cfg : ElasticSearchConfig) (server : Cluster) : t :=
  {| config := cfg;
     metadata := store;
     elasticsearch_client :=
       {| host := "localhost"; port := 9200; http_auth := None;
          cluster := server; calls := [] |};
     status := [] |}.

Definition sink : t := sink_with defaults fresh_cluster.

Definition column (name : string) (tags : list string)
  (children : option (list Column.t)) : Column.t :=
  Column.Build name None (map label tags) children.

(** Root [a] with child [b] with child [c]. *)
Definition three_levels : list Column.t :=
  [ column "a" [] (Some [ column "b" [] (Some [ column "c" [] None ]) ]) ].

Definition orders (tags : option (list string)) (columns : list Column.t) : Table.t :=
  {| Table.id := "table-1";
     Table.name := "orders";
     Table.fullyQualifiedName := "mysql.sales.orders";
     Table.description := None;
     Table.database := reference "db-1" "sales";
     Table.tags := map label <$> tags;
     Table.columns := columns;
     Table.usageSummary := usage0;
     Table.owner := None;
     Table.followers := None;
     Table.tableType := Some "Regular" |}.

Definition clicks (tags : option (list string)) : Topic.t :=
  {| Topic.id := "topic-1";
     Topic.name := "clicks";
     Topic.fullyQualifiedName := "kafka.clicks";
     Topic.description := None;
     Topic.service := reference "svc-2" "kafka";
     Topic.tags := map label <$> tags;
     Topic.owner := None;
     Topic.followers := None |}.

Definition extract_task : Task.t :=
  {| Task.name := "extract";
     Task.displayName := "Extract";
     Task.description := Some "Pull the raw rows";
     Task.tags := [label "PII.Sensitive"] |}.

Definition nightly : Pipeline.t :=
  {| Pipeline.id := "pipeline-1";
     Pipeline.name := "nightly";
     Pipeline.displayName := "Nightly load";
     Pipeline.fullyQualifiedName := "airflow.nightly";
     Pipeline.description := None;
     Pipeline.service := reference "svc-4" "airflow";
     Pipeline.tasks := [extract_task];
     Pipeline.tags := Some [];
     Pipeline.owner := None;
     Pipeline.followers := None |}.

(** A mapping template, written here without its quotation marks, what
    [json.loads] makes of it, and stand-ins for [json.loads] and
    [json.dumps] that know this one template. *)
Definition template : string :=
  "{settings: {}, mappings: {properties: {name: {type: text}}}}".

Definition template_properties : json :=
  JObj [("name", JObj [("type", JStr "text")])].

Definition template_json : json :=
  JObj [("settings", JObj []);
        ("mappings", JObj [("properties", template_properties)])].

Definition loads (s : string) : result json :=
  if String.eqb s template then Ok template_json else Raise JSONDecodeError.

Definition dumps (d : json) : string :=
  match d with
  | JObj [(key, _)] => "{" +:+ key +:+ ": {name: {type: text}}}"
  | _ => "null"
  end.

(** A cluster where the table index exists without mappings and the topic
    index with some. *)
Definition half_made_cluster : Cluster :=
  {| indices :=
       <["table_search_index" := JObj []]>
         (<["topic_search_index" := JObj [("properties", template_properties)]]> ∅);
     documents := ∅ |}.

End Sample.

(** ** More of the documents and of the column forest *)

Definition doc_service (doc : ESDocument) : string :=
  match doc with
  | TableDoc d => TableESDocument.service d
  | TopicDoc d => TopicESDocument.service d
  | DashboardDoc d => DashboardESDocument.service d
  | PipelineDoc d => PipelineESDocument.service d
  end.

Definition doc_service_type (doc : ESDocument) : string :=
  match doc with
  | TableDoc d => TableESDocument.service_type d
  | TopicDoc d => TopicESDocument.service_type d
  | DashboardDoc d => DashboardESDocument.service_type d
  | PipelineDoc d => PipelineESDocument.service_type d
  end.

Definition doc_service_category (doc : ESDocument) : string :=
  match doc with
  | TableDoc d => TableESDocument.service_category d
  | TopicDoc d => TopicESDocument.service_category d
  | DashboardDoc d => DashboardESDocument.service_category d
  | PipelineDoc d => PipelineESDocument.service_category d
  end.

Definition doc_description (doc : ESDocument) : option string :=
  match doc with
  | TableDoc d => TableESDocument.description d
  | TopicDoc d => TopicESDocument.description d
  | DashboardDoc d => DashboardESDocument.description d
  | PipelineDoc d => PipelineESDocument.description d
  end.

Definition doc_fqdn (doc : ESDocument) : string :=
  match doc with
  | TableDoc d => TableESDocument.fqdn d
  | TopicDoc d => TopicESDocument.fqdn d
  | DashboardDoc d => DashboardESDocument.fqdn d
  | PipelineDoc d => PipelineESDocument.fqdn d
  end.

Definition doc_timestamp (doc : ESDocument) : float :=
  match doc with
  | TableDoc d => TableESDocument.last_updated_timestamp d
  | TopicDoc d => TopicESDocument.last_updated_timestamp d
  | DashboardDoc d => DashboardESDocument.last_updated_timestamp d
  | PipelineDoc d => PipelineESDocument.last_updated_timestamp d
  end.

Definition entity_description (e : Entity) : option string :=
  match e with
  | ETable t => Table.description t
  | ETopic t => Topic.description t
  | EDashboard d => Dashboard.description d
  | EPipeline p => Pipeline.description p
  end.

Definition entity_fqdn (e : Entity) : string :=
  match e with
  | ETable t => Table.fullyQualifiedName t
  | ETopic t => Topic.fullyQualifiedName t
  | EDashboard d => Dashboard.fullyQualifiedName d
  | EPipeline p => Pipeline.fullyQualifiedName p
  end.

(** The service entity the builder of [e] resolves: for a table the service
    of the database the store has under the table's database reference. *)
Definition service_of (self : t) (e : Entity) : option Service.t :=
  match e with
  | ETable t =>
      db ← find_Database (metadata self) (ref_id (Table.database t));
      find_DatabaseService (metadata self) (ref_id (Database.service db))
  | ETopic t => find_MessagingService (metadata self) (ref_id (Topic.service t))
  | EDashboard d => find_DashboardService (metadata self) (ref_id (Dashboard.service d))
  | EPipeline p => find_PipelineService (metadata self) (ref_id (Pipeline.service p))
  end.

Definition category_of (k : entity_kind) : string :=
  match k with
  | KTable => "databaseService"
  | KTopic => "messagingService"
  | KDashboard => "dashboardService"
  | KPipeline => "pipelineService"
  end.

(** A column without children of its own, and a column whose children are
    all such: a tree of at most two levels. *)
Definition childless (column : Column.t) : bool :=
  match Column.children column with
  | Some (_ :: _) => false
  | _ => true
  end.

Definition two_levels (column : Column.t) : bool :=
  match Column.children column with
  | Some children => forallb childless children
  | None => true
  end.

(** Calls that write a document. *)
Definition is_index_call (c : es_call) : bool :=
  match c with
  | Index _ _ _ => true
  | _ => false
  end.

(** A method keeps to the layout of the indices: it issues no index call,
    and it leaves the stored documents, the status and the configuration as
    they were. *)
Definition admin_only (m : M unit) : Prop :=
  forall self,
    let self' := (m self).2 in
    config self' = config self
    /\ metadata self' = metadata self
    /\ status self' = status self
    /\ documents (cluster (elasticsearch_client self'))
       = documents (cluster (elasticsearch_client self))
    /\ exists new,
         calls (elasticsearch_client self') = calls (elasticsearch_client self) ++ new
         /\ forallb (fun c => negb (is_index_call c)) new = true.

(** ** Further sample data *)

Module Cases.

(** A topic whose messaging service the sample store does not have. *)
Definition unknown_service_topic : Topic.t :=
  {| Topic.id := "topic-2";
     Topic.name := "orphans";
     Topic.fullyQualifiedName := "nowhere.orphans";
     Topic.description := None;
     Topic.service := Sample.reference "svc-missing" "nowhere";
     Topic.tags := Some [];
     Topic.owner := None;
     Topic.followers := None |}.

(** A topic with an owner and two followers. *)
Definition owned_topic : Topic.t :=
  {| Topic.id := "topic-3";
     Topic.name := "payments";
     Topic.fullyQualifiedName := "kafka.payments";
     Topic.description := Some "Card payments";
     Topic.service := Sample.reference "svc-2" "kafka";
     Topic.tags := Some [];
     Topic.owner := Some (Sample.reference "user-7" "ana");
     Topic.followers :=
       Some [Sample.reference "user-2" "bo"; Sample.reference "user-1" "cy"] |}.

(** A dashboard with the one chart the sample store has, twice, and a
    dashboard with a chart the store does not have. *)
Definition sales_board (chart_ids : option (list string)) : Dashboard.t :=
  {| Dashboard.id := "dashboard-1";
     Dashboard.name := "sales_board";
     Dashboard.displayName := "Sales";
     Dashboard.fullyQualifiedName := "superset.sales_board";
     Dashboard.description := None;
     Dashboard.service := Sample.reference "svc-3" "superset";
     Dashboard.charts := map (fun id => Sample.reference id id) <$> chart_ids;
     Dashboard.usageSummary := Sample.usage0;
     Dashboard.tags := Some [Sample.label "Sales.Team"];
     Dashboard.owner := None;
     Dashboard.followers := None |}.

Definition load_task : Task.t :=
  {| Task.name := "load";
     Task.displayName := "Load";
     Task.description := None;
     Task.tags := [] |}.

Definition two_step : Pipeline.t :=
  {| Pipeline.id := "pipeline-2";
     Pipeline.name := "two_step";
     Pipeline.displayName := "Two steps";
     Pipeline.fullyQualifiedName := "airflow.two_step";
     Pipeline.description := None;
     Pipeline.service := Sample.reference "svc-4" "airflow";
     Pipeline.tasks := [Sample.extract_task; load_task];
     Pipeline.tags := Some [];
     Pipeline.owner := None;
     Pipeline.followers := None |}.

(** Two roots, the first with two childless children. *)
Definition two_level_forest : list Column.t :=
  [ Sample.column "address" []
      (Some [ Sample.column "street" [] None; Sample.column "city" [] (Some []) ]);
    Sample.column "total" [] None ].

(** A cluster where the table index exists without mappings. *)
Definition empty_table_index : Cluster :=
  {| indices := <["table_search_index" := JObj []]> ∅; documents := ∅ |}.

(** A [json.loads] that rejects every text, and a template without its
    [properties]. *)
Definition rejecting_loads (s : string) : result json := Raise JSONDecodeError.

Definition bare_loads (s : string) : result json :=
  Ok (JObj [("settings", JObj []); ("mappings", JObj [])]).

End Cases.

(** * Properties *)

(** ** Loops *)

Lemma fold_tier_step (tags : list TagLabel) (tier0 : option string) (set0 : gset string) :
  fold_left tier_step tags (tier0, set0) =
  (match last (tier_tags tags) with Some x => Some x | None => tier0 end,
   set0 ∪ list_to_set (plain_tags tags)).
Proof.
  revert tier0 set0.
  induction tags as [|tag tags IH]; intros tier0 set0; simpl.
  - f_equal. set_solver.
  - unfold tier_tags, plain_tags, tier_like in *. simpl.
    destruct (str_in "Tier" (tagFQN tag)); simpl; rewrite IH.
    + f_equal. unfold fqns. simpl. rewrite last_cons.
      destruct (last _); reflexivity.
    + f_equal. unfold fqns. simpl. set_solver.
Qed.

Lemma add_tags_spec (xs : list TagLabel) (s : gset string) :
  add_tags xs s = s ∪ list_to_set (fqns xs).
Proof.
  unfold add_tags, fqns. revert s.
  induction xs as [|x xs IH]; intros s; simpl.
  - set_solver.
  - rewrite IH. set_solver.
Qed.

Lemma guarded_add_tags (xs : list TagLabel) (s : gset string) :
  (if (0 <? length xs)%nat then add_tags xs s else s) = s ∪ list_to_set (fqns xs).
Proof.
  destruct xs as [|x xs].
  - simpl. set_solver.
  - replace (0 <? length (x :: xs))%nat with true by reflexivity.
    apply add_tags_spec.
Qed.

(** ** Column trees *)

Lemma parsed_nil acc : parsed [] acc = acc.
Proof.
  destruct acc as [[ns ds] ts]. simpl. rewrite !app_nil_r. f_equal. set_solver.
Qed.

Lemma parsed_app xs ys acc : parsed (xs ++ ys) acc = parsed ys (parsed xs acc).
Proof.
  destruct acc as [[ns ds] ts]. simpl.
  rewrite map_app, omap_app, flat_map_app, !app_assoc, list_to_set_app_L.
  f_equal. set_solver.
Qed.

Lemma parse_loop_spec parent columns :
  Forall (fun c => forall p acc,
            _parse_column p c acc = parsed (column_nodes p c) acc) columns ->
  forall acc,
    fold_left (fun acc column => _parse_column parent column acc) columns acc =
    parsed (forest_nodes parent columns) acc.
Proof.
  induction 1 as [|c cs Hc _ IH]; intros acc.
  - simpl. symmetry. apply parsed_nil.
  - simpl. rewrite Hc, IH. unfold forest_nodes. simpl.
    symmetry. apply parsed_app.
Qed.

Lemma _parse_column_spec column :
  forall parent acc,
    _parse_column parent column acc = parsed (column_nodes parent column) acc.
Proof.
  induction column as [n d ts|n d ts cs IH] using Column_ind;
    intros parent [[ns ds] tags].
  - simpl. rewrite guarded_add_tags.
    unfold listed_name, node_description, node_tags. simpl.
    destruct d; simpl; rewrite ?app_nil_r; reflexivity.
  - change (_parse_column parent (Column.Build n d ts (Some cs)) (ns, ds, tags))
      with (fold_left (fun acc column => _parse_column (Some n) column acc) cs
              (ns ++ [match parent with Some p => p +:+ "." +:+ n | None => n end],
               match d with Some x => ds ++ [x] | None => ds end,
               if (0 <? length ts)%nat then add_tags ts tags else tags)).
    rewrite (parse_loop_spec (Some n) cs IH), guarded_add_tags.
    change (column_nodes parent (Column.Build n d ts (Some cs)))
      with ([(parent, Column.Build n d ts (Some cs))] ++ forest_nodes (Some n) cs).
    rewrite parsed_app. f_equal.
    unfold parsed, listed_name, node_description, node_tags. simpl.
    destruct d; simpl; rewrite ?app_nil_r; reflexivity.
Qed.

Lemma _parse_columns_spec columns parent acc :
  _parse_columns columns parent acc = parsed (forest_nodes parent columns) acc.
Proof.
  unfold _parse_columns. apply parse_loop_spec.
  apply Forall_forall. intros c _. apply _parse_column_spec.
Qed.

(** ** Builders *)

Lemma follower_ids_spec followers :
  follower_ids followers = map ref_id (default [] followers).
Proof.
  destruct followers as [fs|]; [|reflexivity]. simpl.
  enough (forall acc, fold_left (fun acc f => acc ++ [ref_id f]) fs acc
                      = acc ++ map ref_id fs) as H by apply (H []).
  induction fs as [|f fs IH]; intros acc; simpl.
  - symmetry. apply app_nil_r.
  - rewrite IH, <- app_assoc. reflexivity.
Qed.

Lemma get_charts_loop self refs acc :
  for_each
    (fun charts chart_ref =>
       chart ← get_by_id (find_Chart (metadata self)) (ref_id chart_ref);
       mret (charts ++ [chart])) refs acc =
  match mapM (fun chart_ref => find_Chart (metadata self) (ref_id chart_ref)) refs with
  | Some found => Ok (acc ++ found)
  | None => Raise APIError
  end.
Proof.
  revert acc. induction refs as [|r refs IH]; intros acc; simpl.
  - rewrite app_nil_r. reflexivity.
  - unfold get_by_id. destruct (find_Chart (metadata self) (ref_id r)) as [c|]; simpl.
    + rewrite IH. destruct (mapM _ refs); simpl; [|reflexivity].
      rewrite <- app_assoc. reflexivity.
    + reflexivity.
Qed.

Lemma _get_charts_spec self dashboard :
  _get_charts self (Dashboard.charts dashboard) =
  match charts_of self dashboard with
  | Some found => Ok found
  | None => Raise APIError
  end.
Proof.
  unfold _get_charts, charts_of.
  destruct (Dashboard.charts dashboard) as [[|r refs]|]; try reflexivity.
  apply (get_charts_loop self (r :: refs) []).
Qed.

Lemma fold_chart_step charts ns ds tags :
  fold_left chart_step charts (ns, ds, tags) =
  (ns ++ map Chart.displayName charts,
   ds ++ omap Chart.description charts,
   tags ∪ list_to_set (chart_tags charts)).
Proof.
  revert ns ds tags. induction charts as [|c cs IH]; intros ns ds tags; simpl.
  - rewrite !app_nil_r. f_equal. set_solver.
  - rewrite guarded_add_tags, IH. unfold chart_tags. simpl.
    rewrite list_to_set_app_L.
    destruct (Chart.description c); simpl; rewrite <- ?app_assoc; simpl;
      f_equal; set_solver.
Qed.

Lemma fold_task_step tasks ns ds tags :
  fold_left task_step tasks (ns, ds, tags) =
  (ns ++ map Task.displayName tasks,
   ds ++ omap Task.description tasks,
   tags).
Proof.
  revert ns ds tags. induction tasks as [|k ks IH]; intros ns ds tags; simpl.
  - rewrite !app_nil_r. reflexivity.
  - rewrite IH.
    destruct (Task.description k); simpl; rewrite <- ?app_assoc; reflexivity.
Qed.

Lemma union_list_to_set (xs ys : list string) :
  (∅ ∪ list_to_set xs) ∪ list_to_set ys =@{gset string} list_to_set (xs ++ ys).
Proof. set_solver. Qed.

Lemma create_es_doc_spec self now e ts :
  lookups_succeed self e = true ->
  own_tags e = Some ts ->
  exists doc,
    create_es_doc self now e = Ok doc
    /\ doc_id doc = entity_id e
    /\ doc_tier doc = last (tier_tags ts)
    /\ doc_tags doc = elements (list_to_set (plain_tags ts ++ merged_below self e) : gset string)
    /\ doc_owner doc = owner_id (own_owner e)
    /\ doc_followers doc = follower_ids (own_followers e)
    /\ doc_suggest doc = suggest_of e.
Proof.
  intros Hlook Htags. destruct e as [table|topic|dashboard|pipeline]; simpl in *.
  - unfold _create_table_es_doc. rewrite Htags. simpl.
    rewrite fold_tier_step, _parse_columns_spec. simpl.
    unfold get_by_id.
    destruct (find_Database _ _) as [db|]; [|discriminate]. simpl.
    apply bool_decide_eq_true in Hlook. destruct Hlook as [svc ->]. simpl.
    eexists. split; [reflexivity|]. simpl.
    rewrite union_list_to_set.
    destruct (last (tier_tags ts)); repeat split; reflexivity.
  - unfold _create_topic_es_doc, get_by_id.
    apply bool_decide_eq_true in Hlook. destruct Hlook as [svc ->]. simpl.
    rewrite Htags. simpl. rewrite fold_tier_step. simpl.
    eexists. split; [reflexivity|]. simpl.
    rewrite app_nil_r.
    replace (∅ ∪ list_to_set (plain_tags ts)) with (list_to_set (plain_tags ts) : gset string) by set_solver.
    destruct (last (tier_tags ts)); repeat split; reflexivity.
  - unfold _create_dashboard_es_doc, get_by_id.
    apply andb_true_iff in Hlook. destruct Hlook as [Hsvc Hcharts].
    apply bool_decide_eq_true in Hsvc. destruct Hsvc as [svc ->]. simpl.
    apply bool_decide_eq_true in Hcharts. destruct Hcharts as [charts Hcharts].
    rewrite Htags. simpl. rewrite fold_tier_step. simpl.
    rewrite _get_charts_spec, Hcharts. simpl.
    rewrite fold_chart_step. simpl.
    eexists. split; [reflexivity|]. simpl.
    rewrite union_list_to_set.
    destruct (last (tier_tags ts)); repeat split; reflexivity.
  - unfold _create_pipeline_es_doc, get_by_id.
    apply bool_decide_eq_true in Hlook. destruct Hlook as [svc ->]. simpl.
    rewrite Htags. simpl. rewrite fold_tier_step. simpl.
    rewrite fold_task_step. simpl.
    eexists. split; [reflexivity|]. simpl.
    rewrite app_nil_r.
    replace (∅ ∪ list_to_set (plain_tags ts)) with (list_to_set (plain_tags ts) : gset string) by set_solver.
    destruct (last (tier_tags ts)); repeat split; reflexivity.
Qed.

(** ** Bootstrap *)

Section BootstrapFacts.

Variable json_loads : string -> result json.
Variable json_dumps : json -> string.

Lemma lookup_get_mapping (ix : gmap string json) (name : string) :
  ((fun m => JObj [("mappings", m)]) <$> ix) !! name
  = (fun m => JObj [("mappings", m)]) <$> (ix !! name).
Proof. apply lookup_fmap. Qed.

Lemma check_or_create_absent index_name es_mapping self :
  indices (cluster (elasticsearch_client self)) !! index_name = None ->
  _check_or_create_index json_loads json_dumps index_name es_mapping self =
  (Ok tt,
   with_client
     (indices_create json_loads index_name es_mapping
        (issue (IndicesExists index_name) (elasticsearch_client self))) self).
Proof.
  intros Habsent. unfold _check_or_create_index.
  unfold mbind, M_bind, client, indices_exists. simpl.
  case_bool_decide as Hfound; [|reflexivity].
  rewrite Habsent in Hfound. destruct Hfound as [? ?]. discriminate.
Qed.

Lemma check_or_create_present index_name es_mapping self m :
  indices (cluster (elasticsearch_client self)) !! index_name = Some m ->
  _check_or_create_index json_loads json_dumps index_name es_mapping self =
  let es := issue IndicesGetMapping
              (issue (IndicesExists index_name) (elasticsearch_client self)) in
  if truthy m then (Ok tt, with_client es self)
  else
    match json_loads es_mapping with
    | Raise e => (Raise e, with_client es self)
    | Ok d =>
        match getitem d "mappings" with
        | Raise e => (Raise e, with_client es self)
        | Ok ms =>
            match getitem ms "properties" with
            | Raise e => (Raise e, with_client es self)
            | Ok props =>
                (Ok tt,
                 with_client
                   (indices_put_mapping json_loads index_name
                      (json_dumps (JObj [("properties", props)])) es) self)
            end
        end
    end.
Proof.
  intros Hpresent. unfold _check_or_create_index.
  unfold mbind, M_bind, client, lift, indices_exists, indices_get_mapping. simpl.
  case_bool_decide as Hfound; [|rewrite Hpresent in Hfound; contradict Hfound; eauto].
  simpl. rewrite lookup_get_mapping, Hpresent. simpl.
  destruct (truthy m); simpl; [reflexivity|].
  destruct (json_loads es_mapping) as [d|]; simpl; [|reflexivity].
  destruct (getitem d "mappings") as [ms|]; simpl; [|reflexivity].
  destruct (getitem ms "properties") as [props|]; simpl; reflexivity.
Qed.

Lemma leaves_alone_ret name : leaves_alone name (mret tt).
Proof.
  intros self. simpl. split; [reflexivity|]. split; [|reflexivity].
  exists []. rewrite app_nil_r. split; [reflexivity|constructor].
Qed.

Lemma leaves_alone_bind name (m k : M unit) :
  leaves_alone name m -> leaves_alone name k -> leaves_alone name (m ;; k).
Proof.
  intros Hm Hk self. specialize (Hm self).
  unfold mbind, M_bind. simpl in *.
  destruct (m self) as [[[]|e] self1]; simpl in *; [|exact Hm].
  specialize (Hk self1). simpl in Hk.
  destruct Hm as (Hc1 & (new1 & Hcalls1 & Hnew1) & Hix1).
  destruct Hk as (Hc2 & (new2 & Hcalls2 & Hnew2) & Hix2).
  split; [congruence|]. split; [|congruence].
  exists (new1 ++ new2). split.
  - rewrite Hcalls2, Hcalls1, app_assoc. reflexivity.
  - apply Forall_app. split; assumption.
Qed.

Lemma leaves_alone_when name (b : bool) (m : M unit) :
  (b = true -> leaves_alone name m) -> leaves_alone name (when b m).
Proof.
  intros Hm. destruct b; simpl; [auto|apply leaves_alone_ret].
Qed.

Lemma leaves_alone_check name index_name es_mapping :
  index_name <> name ->
  leaves_alone name (_check_or_create_index json_loads json_dumps index_name es_mapping).
Proof.
  intros Hne self.
  assert (Hcall : forall c, call_index c = Some index_name \/ call_index c = None ->
                            call_index c <> Some name).
  { intros c [H|H]; rewrite H; congruence. }
  destruct (indices (cluster (elasticsearch_client self)) !! index_name) as [m|] eqn:Hix.
  - rewrite (check_or_create_present _ _ _ _ Hix). simpl.
    destruct (truthy m);
      [|destruct (json_loads es_mapping) as [d|];
        [destruct (getitem d "mappings") as [ms|];
         [destruct (getitem ms "properties") as [props|]|]|]];
      simpl; (split; [reflexivity|]); (split; [|try reflexivity]);
      try (eexists; split; [rewrite <- app_assoc; reflexivity|];
           repeat constructor; apply Hcall; simpl; auto).
    + eexists. split; [rewrite <- !app_assoc; reflexivity|].
      repeat constructor; apply Hcall; simpl; auto.
    + apply lookup_insert_ne. assumption.
  - rewrite (check_or_create_absent _ _ _ Hix). simpl.
    split; [reflexivity|]. split.
    + eexists. split; [rewrite <- app_assoc; reflexivity|].
      repeat constructor; apply Hcall; simpl; auto.
    + apply lookup_insert_ne. assumption.
Qed.

End BootstrapFacts.

(** ** Record dispatch *)

Lemma write_record_indexed self now e :
  write_record now (Indexed e) self =
  match create_es_doc self now e with
  | Ok doc =>
      (Ok tt,
       records_written (entity_name e)
         (with_client
            (es_index (index_name_of (config self) (kind_of e)) (doc_id doc) doc
               (elasticsearch_client self)) self))
  | Raise err => (Raise err, self)
  end.
Proof.
  unfold write_record, mbind, M_bind, get_self, lift, client_.
  destruct e as [table|topic|dashboard|pipeline]; simpl.
  - destruct (_create_table_es_doc self now table); reflexivity.
  - destruct (_create_topic_es_doc self now topic); reflexivity.
  - destruct (_create_dashboard_es_doc self now dashboard); reflexivity.
  - destruct (_create_pipeline_es_doc self now pipeline); reflexivity.
Qed.


(** ** Tags *)

Lemma tier_tags_tier_like ts x : x ∈ tier_tags ts -> str_in "Tier" x = true.
Proof.
  unfold tier_tags, fqns. rewrite list_elem_of_In, in_map_iff.
  intros (tag & <- & Hin). apply filter_In in Hin. apply Hin.
Qed.

Lemma plain_tags_not_tier_like ts x : x ∈ plain_tags ts -> str_in "Tier" x = false.
Proof.
  unfold plain_tags, fqns. rewrite list_elem_of_In, in_map_iff.
  intros (tag & <- & Hin). apply filter_In in Hin.
  destruct Hin as [_ Hin]. apply negb_true_iff in Hin. exact Hin.
Qed.

Lemma elem_of_tag_list (xs ys : list string) x :
  x ∈ elements (list_to_set (xs ++ ys) : gset string) <-> x ∈ xs \/ x ∈ ys.
Proof. rewrite elem_of_elements, elem_of_list_to_set, elem_of_app. reflexivity. Qed.

Lemma merged_below_carried self e x : x ∈ merged_below self e -> x ∈ carried_below self e.
Proof. destruct e; simpl; auto. intros H. inversion H. Qed.

Lemma last_elem_of (l : list string) x : last l = Some x -> x ∈ l.
Proof.
  rewrite last_Some. intros [l' ->]. apply elem_of_app. right. left.
Qed.

(** ** The mapping contract *)

(** C1, as stated, fails: for a topic tagged "Tier.Tier1" then "Tier.Tier2"
    the first tier-like tag is "Tier.Tier1", yet the document's tier is
    "Tier.Tier2", because the loop assigns to [tier] at every such tag. *)
Lemma first_tier_tag_is_overwritten :
  own_tags (ETopic (Sample.clicks (Some ["Tier.Tier1"; "Tier.Tier2"])))
    = Some [Sample.label "Tier.Tier1"; Sample.label "Tier.Tier2"]
  /\ head (tier_tags [Sample.label "Tier.Tier1"; Sample.label "Tier.Tier2"])
     = Some "Tier.Tier1"
  /\ doc_tier <$> create_es_doc Sample.sink Sample.clock
                    (ETopic (Sample.clicks (Some ["Tier.Tier1"; "Tier.Tier2"])))
     = Ok (Some "Tier.Tier2").
Proof. repeat split; vm_compute; reflexivity. Qed.

(** C1 (amended): for every entity of the four kinds whose tag list is set
    and whose lookups succeed, the builder returns a document whose tier is
    the LAST tag of the list whose name contains "Tier" (and no tier when
    there is none). *)
Theorem tier_is_last_tier_tag self now e ts :
  lookups_succeed self e = true ->
  own_tags e = Some ts ->
  exists doc,
    create_es_doc self now e = Ok doc /\ doc_tier doc = last (tier_tags ts).
Proof.
  intros Hlook Htags.
  destruct (create_es_doc_spec self now e ts Hlook Htags) as (doc & Hdoc & _ & Htier & _).
  eauto.
Qed.

Lemma tier_is_last_tier_tag_witness :
  exists doc,
    create_es_doc Sample.sink Sample.clock
      (ETable (Sample.orders (Some ["Tier.Tier1"; "PII.Sensitive"; "Tier.Tier2"]) []))
    = Ok doc
    /\ doc_tier doc = Some "Tier.Tier2".
Proof.
  apply (tier_is_last_tier_tag Sample.sink Sample.clock
           (ETable (Sample.orders (Some ["Tier.Tier1"; "PII.Sensitive"; "Tier.Tier2"]) []))
           (map Sample.label ["Tier.Tier1"; "PII.Sensitive"; "Tier.Tier2"])).
  - reflexivity.
  - reflexivity.
Defined.

(** C2, as stated, fails: on root [a] with child [b] with grandchild [c]
    the names come out as "a", "a.b", "b.c", not as the full dotted paths
    "a", "a.b", "a.b.c", because the recursion hands down the child's own
    name and not the name it was listed under. *)
Lemma three_levels_are_not_full_paths :
  (_parse_columns Sample.three_levels None ([], [], ∅)).1.1 = ["a"; "a.b"; "b.c"]
  /\ spec_column_names Sample.three_levels = ["a"; "a.b"; "a.b.c"]
  /\ (_parse_columns Sample.three_levels None ([], [], ∅)).1.1
     <> spec_column_names Sample.three_levels.
Proof.
  assert (H1 : (_parse_columns Sample.three_levels None ([], [], ∅)).1.1
               = ["a"; "a.b"; "b.c"]) by (vm_compute; reflexivity).
  assert (H2 : spec_column_names Sample.three_levels = ["a"; "a.b"; "a.b.c"])
    by (vm_compute; reflexivity).
  repeat split; try assumption. rewrite H1, H2. discriminate.
Qed.

(** C2 (amended): [_parse_columns] appends one name per node of the column
    forest in pre-order and one description per node that has one, each
    nested column under its parent's own name, a dot and its own name; a
    three-level tree [a], [b], [c] yields "a", "a.b", "b.c" in that order. *)
Theorem parse_columns_lists_nodes_in_preorder :
  (forall columns parent ns ds ts,
     _parse_columns columns parent (ns, ds, ts) =
     (ns ++ map listed_name (forest_nodes parent columns),
      ds ++ omap node_description (forest_nodes parent columns),
      ts ∪ list_to_set (flat_map node_tags (forest_nodes parent columns))))
  /\ (forall a b c da db dc ta tb tc,
        (_parse_columns
           [Column.Build a da ta
              (Some [Column.Build b db tb (Some [Column.Build c dc tc None])])]
           None ([], [], ∅)).1.1
        = [a; a +:+ "." +:+ b; b +:+ "." +:+ c]).
Proof.
  split.
  - intros. apply _parse_columns_spec.
  - intros. rewrite _parse_columns_spec. reflexivity.
Qed.

(** C3, as stated, fails: with [index_tables] false, a sink constructed on a
    fresh cluster and handed a table still issues an index call to the
    table index. *)
Lemma disabled_kind_is_still_written :
  flag_set (enabled Sample.tables_off KTable) = false
  /\ existsb (is_index_call_on (table_index_name Sample.tables_off))
       (calls (elasticsearch_client
                 (write_record Sample.clock
                    (Indexed (ETable (Sample.orders (Some []) [])))
                    (__init__ Sample.loads Sample.dumps
                       Sample.template Sample.template Sample.template Sample.template
                       Sample.tables_off Sample.store Sample.fresh_cluster).2).2))
     = true.
Proof. split; vm_compute; reflexivity. Qed.

(** C3 (amended): for every kind whose enable flag is false the constructor
    issues no call that names that kind's index and leaves the cluster's
    entry for it as it was (no enabled kind sharing the index name), whereas
    [write_record] does not consult the flags: for an entity of any kind
    whose document builds it issues exactly one index call, to that kind's
    index. *)
Theorem flags_gate_bootstrap_only :
  (forall json_loads json_dumps table_mapping topic_mapping dashboard_mapping
          pipeline_mapping config metadata server k,
     flag_set (enabled config k) = false ->
     (forall k', flag_set (enabled config k') = true ->
                 index_name_of config k' <> index_name_of config k) ->
     let self := (__init__ json_loads json_dumps table_mapping topic_mapping
                    dashboard_mapping pipeline_mapping config metadata server).2 in
     Forall (fun c => call_index c <> Some (index_name_of config k))
       (calls (elasticsearch_client self))
     /\ indices (cluster (elasticsearch_client self)) !! index_name_of config k
        = indices server !! index_name_of config k)
  /\ (forall self now e ts,
        lookups_succeed self e = true ->
        own_tags e = Some ts ->
        exists doc,
          create_es_doc self now e = Ok doc
          /\ (write_record now (Indexed e) self).1 = Ok tt
          /\ calls (elasticsearch_client (write_record now (Indexed e) self).2)
             = calls (elasticsearch_client self)
               ++ [Index (index_name_of (config self) (kind_of e)) (doc_id doc) doc]).
Proof.
  split.
  - intros json_loads json_dumps tm pm dm im config metadata server k Hoff Hnames.
    unfold __init__.
    match goal with
    | |- context [ ?prog {| config := config; metadata := metadata;
                            elasticsearch_client := ?es; status := [] |} ] =>
        assert (Hrun : leaves_alone (index_name_of config k) prog)
    end.
    { repeat apply leaves_alone_bind;
        apply leaves_alone_when; intros Hon; apply leaves_alone_check.
      - apply (Hnames KTable Hon).
      - apply (Hnames KTopic Hon).
      - apply (Hnames KDashboard Hon).
      - apply (Hnames KPipeline Hon). }
    match goal with
    | |- context [ ?prog ?s ] =>
        match type of Hrun with leaves_alone _ prog => specialize (Hrun s) end
    end.
    simpl in Hrun. destruct Hrun as (_ & (new & Hcalls & Hnew) & Hix).
    simpl. split; [|exact Hix].
    rewrite Hcalls. exact Hnew.
  - intros self now e ts Hlook Htags.
    destruct (create_es_doc_spec self now e ts Hlook Htags) as (doc & Hdoc & _).
    exists doc. rewrite write_record_indexed, Hdoc. simpl. auto.
Qed.

Lemma flags_gate_bootstrap_only_witness :
  (Forall (fun c => call_index c <> Some "table_search_index")
     (calls (elasticsearch_client
               (__init__ Sample.loads Sample.dumps
                  Sample.template Sample.template Sample.template Sample.template
                  Sample.tables_off Sample.store Sample.fresh_cluster).2))
   /\ indices (cluster (elasticsearch_client
                 (__init__ Sample.loads Sample.dumps
                    Sample.template Sample.template Sample.template Sample.template
                    Sample.tables_off Sample.store Sample.fresh_cluster).2))
        !! "table_search_index"
      = indices Sample.fresh_cluster !! "table_search_index")
  /\ exists doc,
       create_es_doc (Sample.sink_with Sample.tables_off Sample.fresh_cluster)
         Sample.clock (ETable (Sample.orders (Some []) [])) = Ok doc
       /\ (write_record Sample.clock (Indexed (ETable (Sample.orders (Some []) [])))
             (Sample.sink_with Sample.tables_off Sample.fresh_cluster)).1 = Ok tt
       /\ calls (elasticsearch_client
                   (write_record Sample.clock
                      (Indexed (ETable (Sample.orders (Some []) [])))
                      (Sample.sink_with Sample.tables_off Sample.fresh_cluster)).2)
          = [] ++ [Index "table_search_index" (doc_id doc) doc].
Proof.
  split.
  - apply (proj1 flags_gate_bootstrap_only Sample.loads Sample.dumps
             Sample.template Sample.template Sample.template Sample.template
             Sample.tables_off Sample.store Sample.fresh_cluster KTable).
    + reflexivity.
    + intros [] Hon; simpl; discriminate.
  - apply (proj2 flags_gate_bootstrap_only
             (Sample.sink_with Sample.tables_off Sample.fresh_cluster) Sample.clock
             (ETable (Sample.orders (Some []) [])) []).
    + reflexivity.
    + reflexivity.
Defined.

(** C4, as stated, fails: the table builder applied to a table whose tags
    field is unset raises [TypeError], for it iterates the field
    unguarded. *)
Lemma unset_tags_raise :
  own_tags (ETable (Sample.orders None [])) = None
  /\ create_es_doc Sample.sink Sample.clock (ETable (Sample.orders None []))
     = Raise TypeError.
Proof. split; reflexivity. Qed.

Lemma create_es_doc_unset_tags self now e :
  own_tags e = None ->
  create_es_doc self now e = Raise TypeError
  \/ create_es_doc self now e = Raise APIError.
Proof.
  intros Htags. destruct e as [table|topic|dashboard|pipeline]; simpl in *.
  - left. unfold _create_table_es_doc. rewrite Htags. reflexivity.
  - unfold _create_topic_es_doc, get_by_id.
    destruct (find_MessagingService _ _); simpl; [|right; reflexivity].
    rewrite Htags. left. reflexivity.
  - unfold _create_dashboard_es_doc, get_by_id.
    destruct (find_DashboardService _ _); simpl; [|right; reflexivity].
    rewrite Htags. left. reflexivity.
  - unfold _create_pipeline_es_doc, get_by_id.
    destruct (find_PipelineService _ _); simpl; [|right; reflexivity].
    rewrite Htags. left. reflexivity.
Qed.

(** C4 (amended): for every entity whose tag list is set and whose lookups
    succeed the builder returns a document, with the empty string for a
    missing owner, the empty list for missing followers, and for an empty
    tag list no tier and no tag but those carried below the entity; for an
    entity whose tags field is unset the builder raises. *)
Theorem missing_owner_followers_default_unset_tags_raise self now e :
  (forall ts,
     lookups_succeed self e = true ->
     own_tags e = Some ts ->
     exists doc,
       create_es_doc self now e = Ok doc
       /\ (own_owner e = None -> doc_owner doc = EmptyString)
       /\ (own_followers e = None -> doc_followers doc = [])
       /\ (ts = [] ->
           doc_tier doc = None
           /\ forall x, x ∈ doc_tags doc -> x ∈ carried_below self e))
  /\ (own_tags e = None ->
      create_es_doc self now e = Raise TypeError
      \/ create_es_doc self now e = Raise APIError).
Proof.
  split; [|apply create_es_doc_unset_tags].
  intros ts Hlook Htags.
  destruct (create_es_doc_spec self now e ts Hlook Htags)
    as (doc & Hdoc & _ & Htier & Hdtags & Howner & Hfollowers & _).
  exists doc. split; [exact Hdoc|]. split; [|split].
  - intros Hnone. rewrite Howner, Hnone. reflexivity.
  - intros Hnone. rewrite Hfollowers, Hnone. reflexivity.
  - intros ->. split; [exact Htier|].
    intros x. rewrite Hdtags, elem_of_tag_list. intros [Hx|Hx].
    + inversion Hx.
    + apply merged_below_carried. exact Hx.
Qed.

Lemma missing_owner_followers_default_unset_tags_raise_witness :
  (exists doc,
     create_es_doc Sample.sink Sample.clock (ETopic (Sample.clicks (Some []))) = Ok doc
     /\ (own_owner (ETopic (Sample.clicks (Some []))) = None -> doc_owner doc = EmptyString)
     /\ (own_followers (ETopic (Sample.clicks (Some []))) = None -> doc_followers doc = [])
     /\ (@nil TagLabel = [] ->
         doc_tier doc = None
         /\ forall x, x ∈ doc_tags doc ->
                      x ∈ carried_below Sample.sink (ETopic (Sample.clicks (Some [])))))
  /\ (create_es_doc Sample.sink Sample.clock (ETopic (Sample.clicks None)) = Raise TypeError
      \/ create_es_doc Sample.sink Sample.clock (ETopic (Sample.clicks None)) = Raise APIError).
Proof.
  split.
  - apply (proj1 (missing_owner_followers_default_unset_tags_raise
                    Sample.sink Sample.clock (ETopic (Sample.clicks (Some [])))) []).
    + reflexivity.
    + reflexivity.
  - apply (proj2 (missing_owner_followers_default_unset_tags_raise
                    Sample.sink Sample.clock (ETopic (Sample.clicks None)))).
    reflexivity.
Defined.

(** The tags of a pipeline document are the plain tags of the pipeline
    itself, whatever its tasks carry. *)
Lemma pipeline_tags_are_own_plain_tags self now pipeline ts doc x :
  Pipeline.tags pipeline = Some ts ->
  _create_pipeline_es_doc self now pipeline = Ok doc ->
  x ∈ PipelineESDocument.tags doc <-> x ∈ plain_tags ts.
Proof.
  intros Htags. unfold _create_pipeline_es_doc, get_by_id.
  destruct (find_PipelineService _ _) as [svc|]; simpl; [|discriminate].
  rewrite Htags. simpl. rewrite fold_tier_step. simpl.
  rewrite fold_task_step. simpl.
  destruct (last (tier_tags ts)); intros [= <-]; simpl;
    rewrite elem_of_elements; set_solver.
Qed.

(** C5, the code at the failing input: a pipeline without tags of its own
    whose single task carries "PII.Sensitive". The task's display name and
    description are collected, but the document's tags are empty: the test
    [tags in task] asks whether the tag set is among the task's items and
    never holds, so no task tag is merged. *)
Theorem task_tags_are_not_merged :
  exists doc,
    _create_pipeline_es_doc Sample.sink Sample.clock Sample.nightly = Ok doc
    /\ PipelineESDocument.task_names doc = ["Extract"]
    /\ PipelineESDocument.task_descriptions doc = ["Pull the raw rows"]
    /\ task_tags (Pipeline.tasks Sample.nightly) = ["PII.Sensitive"]
    /\ PipelineESDocument.tags doc = [].
Proof.
  eexists. split; [vm_compute; reflexivity|].
  repeat split; vm_compute; reflexivity.
Qed.

(** C6, as stated, fails: for a table whose only tag is "Tier.Tier1" and
    one of whose columns carries the same tag, the document's tier is
    "Tier.Tier1" and its tags contain "Tier.Tier1" as well, since column
    tags are added whatever their name. *)
Lemma tier_tag_of_a_column_is_kept :
  tier_tags [Sample.label "Tier.Tier1"] = ["Tier.Tier1"]
  /\ doc_tier <$> create_es_doc Sample.sink Sample.clock
                    (ETable (Sample.orders (Some ["Tier.Tier1"])
                               [Sample.column "total" ["Tier.Tier1"] None]))
     = Ok (Some "Tier.Tier1")
  /\ doc_tags <$> create_es_doc Sample.sink Sample.clock
                    (ETable (Sample.orders (Some ["Tier.Tier1"])
                               [Sample.column "total" ["Tier.Tier1"] None]))
     = Ok ["Tier.Tier1"].
Proof. repeat split; vm_compute; reflexivity. Qed.

(** C6 (amended): for every entity of the four kinds the document's tags
    contain the chosen tier tag only if a column, chart or task of the
    entity carries that same name; for a table with exactly one tier-like
    tag the tier is that tag, and the tags contain it exactly when one of
    the table's columns carries it. *)
Theorem tier_in_tags_only_if_carried_below self now e ts :
  lookups_succeed self e = true ->
  own_tags e = Some ts ->
  exists doc,
    create_es_doc self now e = Ok doc
    /\ (forall x, doc_tier doc = Some x -> x ∈ doc_tags doc -> x ∈ carried_below self e)
    /\ (forall table x,
          e = ETable table ->
          tier_tags ts = [x] ->
          doc_tier doc = Some x
          /\ (x ∈ doc_tags doc <-> x ∈ column_tags (Table.columns table))).
Proof.
  intros Hlook Htags.
  destruct (create_es_doc_spec self now e ts Hlook Htags)
    as (doc & Hdoc & _ & Htier & Hdtags & _).
  exists doc. split; [exact Hdoc|].
  assert (Hkept : forall x, x ∈ tier_tags ts ->
                            (x ∈ doc_tags doc <-> x ∈ merged_below self e)).
  { intros x Hx. rewrite Hdtags, elem_of_tag_list. split; [|auto].
    intros [Hplain|Hbelow]; [|exact Hbelow].
    apply tier_tags_tier_like in Hx. apply plain_tags_not_tier_like in Hplain.
    congruence. }
  split.
  - intros x Hx Hin. rewrite Htier in Hx. apply last_elem_of in Hx.
    apply merged_below_carried, (Hkept x Hx), Hin.
  - intros table x -> Hone. rewrite Htier, Hone. split; [reflexivity|].
    apply (Hkept x). rewrite Hone. left.
Qed.

Lemma tier_in_tags_only_if_carried_below_witness :
  exists doc,
    create_es_doc Sample.sink Sample.clock
      (ETable (Sample.orders (Some ["Tier.Tier1"; "PII.Sensitive"])
                 [Sample.column "total" ["PII.Sensitive"] None])) = Ok doc
    /\ (forall x, doc_tier doc = Some x -> x ∈ doc_tags doc ->
                  x ∈ carried_below Sample.sink
                        (ETable (Sample.orders (Some ["Tier.Tier1"; "PII.Sensitive"])
                                   [Sample.column "total" ["PII.Sensitive"] None])))
    /\ (forall table x,
          ETable (Sample.orders (Some ["Tier.Tier1"; "PII.Sensitive"])
                    [Sample.column "total" ["PII.Sensitive"] None]) = ETable table ->
          tier_tags (map Sample.label ["Tier.Tier1"; "PII.Sensitive"]) = [x] ->
          doc_tier doc = Some x
          /\ (x ∈ doc_tags doc <-> x ∈ column_tags (Table.columns table))).
Proof.
  apply (tier_in_tags_only_if_carried_below Sample.sink Sample.clock
           (ETable (Sample.orders (Some ["Tier.Tier1"; "PII.Sensitive"])
                      [Sample.column "total" ["PII.Sensitive"] None]))
           (map Sample.label ["Tier.Tier1"; "PII.Sensitive"])).
  - reflexivity.
  - reflexivity.
Defined.

(** C7: [_check_or_create_index] on an index that does not exist issues,
    after the existence check, exactly one create call with the whole
    mapping template as body; on an existing index whose mappings are empty
    exactly one put-mapping call whose body is the dump of the dict holding
    only the template's [properties]; on an existing index with mappings
    nothing but the two reads. *)
Theorem check_or_create_index_calls json_loads json_dumps index_name es_mapping self :
  let es := elasticsearch_client self in
  let run := _check_or_create_index json_loads json_dumps index_name es_mapping self in
  (indices (cluster es) !! index_name = None ->
   run.1 = Ok tt
   /\ calls (elasticsearch_client run.2)
      = calls es ++ [IndicesExists index_name; IndicesCreate index_name es_mapping])
  /\ (forall m d ms props,
        indices (cluster es) !! index_name = Some m ->
        truthy m = false ->
        json_loads es_mapping = Ok d ->
        getitem d "mappings" = Ok ms ->
        getitem ms "properties" = Ok props ->
        run.1 = Ok tt
        /\ calls (elasticsearch_client run.2)
           = calls es ++ [IndicesExists index_name; IndicesGetMapping;
                          IndicesPutMapping index_name
                            (json_dumps (JObj [("properties", props)]))])
  /\ (forall m,
        indices (cluster es) !! index_name = Some m ->
        truthy m = true ->
        run.1 = Ok tt
        /\ calls (elasticsearch_client run.2)
           = calls es ++ [IndicesExists index_name; IndicesGetMapping]).
Proof.
  simpl. split; [|split].
  - intros Habsent. rewrite (check_or_create_absent _ _ _ _ _ Habsent). simpl.
    rewrite <- app_assoc. auto.
  - intros m d ms props Hpresent Hempty Hd Hms Hprops.
    rewrite (check_or_create_present _ _ _ _ _ _ Hpresent). simpl.
    rewrite Hempty, Hd, Hms, Hprops. simpl.
    rewrite <- !app_assoc. auto.
  - intros m Hpresent Hfull.
    rewrite (check_or_create_present _ _ _ _ _ _ Hpresent). simpl.
    rewrite Hfull. simpl. rewrite <- app_assoc. auto.
Qed.

Lemma check_or_create_index_calls_witness :
  ((_check_or_create_index Sample.loads Sample.dumps "dashboard_search_index"
      Sample.template (Sample.sink_with Sample.defaults Sample.half_made_cluster)).1
   = Ok tt
   /\ calls (elasticsearch_client
               (_check_or_create_index Sample.loads Sample.dumps
                  "dashboard_search_index" Sample.template
                  (Sample.sink_with Sample.defaults Sample.half_made_cluster)).2)
      = [] ++ [IndicesExists "dashboard_search_index";
               IndicesCreate "dashboard_search_index" Sample.template])
  /\ ((_check_or_create_index Sample.loads Sample.dumps "table_search_index"
         Sample.template (Sample.sink_with Sample.defaults Sample.half_made_cluster)).1
      = Ok tt
      /\ calls (elasticsearch_client
                  (_check_or_create_index Sample.loads Sample.dumps
                     "table_search_index" Sample.template
                     (Sample.sink_with Sample.defaults Sample.half_made_cluster)).2)
         = [] ++ [IndicesExists "table_search_index"; IndicesGetMapping;
                  IndicesPutMapping "table_search_index"
                    (Sample.dumps (JObj [("properties", Sample.template_properties)]))])
  /\ ((_check_or_create_index Sample.loads Sample.dumps "topic_search_index"
         Sample.template (Sample.sink_with Sample.defaults Sample.half_made_cluster)).1
      = Ok tt
      /\ calls (elasticsearch_client
                  (_check_or_create_index Sample.loads Sample.dumps
                     "topic_search_index" Sample.template
                     (Sample.sink_with Sample.defaults Sample.half_made_cluster)).2)
         = [] ++ [IndicesExists "topic_search_index"; IndicesGetMapping]).
Proof.
  split; [|split].
  - apply (proj1 (check_or_create_index_calls Sample.loads Sample.dumps
                    "dashboard_search_index" Sample.template
                    (Sample.sink_with Sample.defaults Sample.half_made_cluster))).
    vm_compute. reflexivity.
  - apply (proj1 (proj2 (check_or_create_index_calls Sample.loads Sample.dumps
                           "table_search_index" Sample.template
                           (Sample.sink_with Sample.defaults Sample.half_made_cluster)))
             (JObj []) Sample.template_json
             (JObj [("properties", Sample.template_properties)])
             Sample.template_properties).
    + vm_compute. reflexivity.
    + reflexivity.
    + reflexivity.
    + reflexivity.
    + reflexivity.
  - apply (proj2 (proj2 (check_or_create_index_calls Sample.loads Sample.dumps
                           "topic_search_index" Sample.template
                           (Sample.sink_with Sample.defaults Sample.half_made_cluster)))
             (JObj [("properties", Sample.template_properties)])).
    + vm_compute. reflexivity.
    + reflexivity.
Defined.

(** C8: for every entity of the four kinds whose document builds, no owner
    gives the empty string as the document's owner and no followers give
    the empty list as its followers. *)
Theorem no_owner_no_followers self now e ts :
  lookups_succeed self e = true ->
  own_tags e = Some ts ->
  exists doc,
    create_es_doc self now e = Ok doc
    /\ (own_owner e = None -> doc_owner doc = EmptyString)
    /\ (own_followers e = None \/ own_followers e = Some [] -> doc_followers doc = []).
Proof.
  intros Hlook Htags.
  destruct (create_es_doc_spec self now e ts Hlook Htags)
    as (doc & Hdoc & _ & _ & _ & Howner & Hfollowers & _).
  exists doc. split; [exact Hdoc|]. split.
  - intros Hnone. rewrite Howner, Hnone. reflexivity.
  - intros [Hnone|Hnone]; rewrite Hfollowers, Hnone; reflexivity.
Qed.

Lemma no_owner_no_followers_witness :
  exists doc,
    create_es_doc Sample.sink Sample.clock (EPipeline Sample.nightly) = Ok doc
    /\ (own_owner (EPipeline Sample.nightly) = None -> doc_owner doc = EmptyString)
    /\ (own_followers (EPipeline Sample.nightly) = None
        \/ own_followers (EPipeline Sample.nightly) = Some [] ->
        doc_followers doc = []).
Proof.
  apply (no_owner_no_followers Sample.sink Sample.clock (EPipeline Sample.nightly) []).
  - reflexivity.
  - reflexivity.
Defined.

(** C9: the suggest field of a table or topic document has two entries, the
    fully-qualified name at weight 5 then the short name at weight 10; that
    of a dashboard or pipeline document has one, the display name at weight
    10. *)
Theorem suggest_entries self now e ts :
  lookups_succeed self e = true ->
  own_tags e = Some ts ->
  exists doc,
    create_es_doc self now e = Ok doc
    /\ doc_suggest doc =
       match e with
       | ETable t =>
           [ {| input := [Table.fullyQualifiedName t]; weight := 5 |};
             {| input := [Table.name t]; weight := 10 |} ]
       | ETopic t =>
           [ {| input := [Topic.fullyQualifiedName t]; weight := 5 |};
             {| input := [Topic.name t]; weight := 10 |} ]
       | EDashboard d => [ {| input := [Dashboard.displayName d]; weight := 10 |} ]
       | EPipeline p => [ {| input := [Pipeline.displayName p]; weight := 10 |} ]
       end.
Proof.
  intros Hlook Htags.
  destruct (create_es_doc_spec self now e ts Hlook Htags)
    as (doc & Hdoc & _ & _ & _ & _ & _ & Hsuggest).
  exists doc. split; [exact Hdoc|exact Hsuggest].
Qed.

Lemma suggest_entries_witness :
  exists doc,
    create_es_doc Sample.sink Sample.clock
      (ETable (Sample.orders (Some ["Tier.Tier1"; "PII.Sensitive"]) [])) = Ok doc
    /\ doc_suggest doc =
       [ {| input := ["mysql.sales.orders"]; weight := 5 |};
         {| input := ["orders"]; weight := 10 |} ].
Proof.
  apply (suggest_entries Sample.sink Sample.clock
           (ETable (Sample.orders (Some ["Tier.Tier1"; "PII.Sensitive"]) []))
           (map Sample.label ["Tier.Tier1"; "PII.Sensitive"])).
  - reflexivity.
  - reflexivity.
Defined.

(** C10, as stated, fails: for a table tagged "Tier.Tier1" then "Tier.Tier2"
    with a column that carries "Tier.Tier1", the tier is "Tier.Tier2" and
    the unchosen "Tier.Tier1" is in the document's tags. *)
Lemma unchosen_tier_tag_of_a_column_is_kept :
  tier_tags [Sample.label "Tier.Tier1"; Sample.label "Tier.Tier2"]
    = ["Tier.Tier1"; "Tier.Tier2"]
  /\ doc_tier <$> create_es_doc Sample.sink Sample.clock
                    (ETable (Sample.orders (Some ["Tier.Tier1"; "Tier.Tier2"])
                               [Sample.column "total" ["Tier.Tier1"] None]))
     = Ok (Some "Tier.Tier2")
  /\ doc_tags <$> create_es_doc Sample.sink Sample.clock
                    (ETable (Sample.orders (Some ["Tier.Tier1"; "Tier.Tier2"])
                               [Sample.column "total" ["Tier.Tier1"] None]))
     = Ok ["Tier.Tier1"].
Proof. repeat split; vm_compute; reflexivity. Qed.

(** C10 (amended): for every entity of the four kinds, a tag of the entity's
    own list whose name contains "Tier" is in the document's tags only if a
    column, chart or task of the entity carries that same name, and unless
    it is the last such tag of the list it is not the tier either. *)
Theorem tier_like_tags_only_if_carried_below self now e ts :
  lookups_succeed self e = true ->
  own_tags e = Some ts ->
  exists doc,
    create_es_doc self now e = Ok doc
    /\ forall x,
         x ∈ tier_tags ts ->
         (x ∈ doc_tags doc -> x ∈ carried_below self e)
         /\ (last (tier_tags ts) <> Some x -> doc_tier doc <> Some x).
Proof.
  intros Hlook Htags.
  destruct (create_es_doc_spec self now e ts Hlook Htags)
    as (doc & Hdoc & _ & Htier & Hdtags & _).
  exists doc. split; [exact Hdoc|].
  intros x Hx. split.
  - rewrite Hdtags, elem_of_tag_list. intros [Hplain|Hbelow].
    + apply tier_tags_tier_like in Hx. apply plain_tags_not_tier_like in Hplain.
      congruence.
    + apply merged_below_carried. exact Hbelow.
  - rewrite Htier. auto.
Qed.

Lemma tier_like_tags_only_if_carried_below_witness :
  exists doc,
    create_es_doc Sample.sink Sample.clock
      (ETopic (Sample.clicks (Some ["Tier.Tier1"; "Tier.Tier2"; "PII.Sensitive"])))
    = Ok doc
    /\ forall x,
         x ∈ tier_tags (map Sample.label ["Tier.Tier1"; "Tier.Tier2"; "PII.Sensitive"]) ->
         (x ∈ doc_tags doc ->
          x ∈ carried_below Sample.sink
                (ETopic (Sample.clicks (Some ["Tier.Tier1"; "Tier.Tier2"; "PII.Sensitive"]))))
         /\ (last (tier_tags (map Sample.label ["Tier.Tier1"; "Tier.Tier2"; "PII.Sensitive"]))
               <> Some x ->
             doc_tier doc <> Some x).
Proof.
  apply (tier_like_tags_only_if_carried_below Sample.sink Sample.clock
           (ETopic (Sample.clicks (Some ["Tier.Tier1"; "Tier.Tier2"; "PII.Sensitive"])))
           (map Sample.label ["Tier.Tier1"; "Tier.Tier2"; "PII.Sensitive"])).
  - reflexivity.
  - reflexivity.
Defined.

(** The end-to-end example of the specification: the table [orders] of
    [mysql.sales], tagged "Tier.Tier1" and "PII.Sensitive", without owner. *)
Example orders_end_to_end :
  exists doc,
    _create_table_es_doc Sample.sink Sample.clock
      (Sample.orders (Some ["Tier.Tier1"; "PII.Sensitive"]) []) = Ok doc
    /\ TableESDocument.tier doc = Some "Tier.Tier1"
    /\ TableESDocument.tags doc = ["PII.Sensitive"]
    /\ TableESDocument.suggest doc =
       [ {| input := ["mysql.sales.orders"]; weight := 5 |};
         {| input := ["orders"]; weight := 10 |} ]
    /\ TableESDocument.owner doc = EmptyString.
Proof.
  eexists. split; [vm_compute; reflexivity|].
  repeat split; vm_compute; reflexivity.
Qed.

(** * Further properties *)

(** ** Substring test *)

Lemma prefix_iff_append (needle hay : string) :
  String.prefix needle hay = true <-> exists post, hay = needle +:+ post.
Proof.
  revert hay. induction needle as [|a needle IH]; intros hay; simpl.
  - split; [intros _; exists hay; reflexivity|destruct hay; reflexivity].
  - destruct hay as [|b hay].
    + split; [discriminate|intros [post H]; discriminate].
    + simpl. destruct (Ascii.ascii_dec a b) as [->|Hne].
      * rewrite IH. split; intros [post H]; exists post.
        -- rewrite H. reflexivity.
        -- injection H as H. exact H.
      * split; [discriminate|].
        intros [post H]. injection H as Hab _. congruence.
Qed.

Lemma str_in_nil (needle : string) :
  str_in needle EmptyString = String.prefix needle EmptyString.
Proof. unfold str_in. apply orb_false_r. Qed.

Lemma str_in_cons (needle : string) (b : Ascii.ascii) (hay : string) :
  str_in needle (String b hay)
  = String.prefix needle (String b hay) || str_in needle hay.
Proof. reflexivity. Qed.

(** The substring test holds exactly when the text is some prefix, then the
    needle, then some suffix. *)
Lemma str_in_iff_substring (needle hay : string) :
  str_in needle hay = true <-> exists pre post, hay = pre +:+ needle +:+ post.
Proof.
  induction hay as [|b hay IH].
  - rewrite str_in_nil, prefix_iff_append. split.
    + intros [post H]. exists EmptyString, post. exact H.
    + intros (pre & post & H). destruct pre as [|c pre]; [|discriminate].
      exists post. exact H.
  - rewrite str_in_cons, orb_true_iff, IH, prefix_iff_append. split.
    + intros [[post H]|(pre & post & H)].
      * exists EmptyString, post. exact H.
      * exists (String b pre), post. rewrite H. reflexivity.
    + intros (pre & post & H). destruct pre as [|c pre].
      * left. exists post. exact H.
      * right. injection H as _ H. exists pre, post. exact H.
Qed.

(** X1: the loop over an entity's own tags takes a tag for the tier exactly
    when "Tier" occurs somewhere in its name, with that capital: such a tag
    replaces the tier and leaves the set alone, any other tag is added to
    the set and leaves the tier alone. *)
Theorem tier_step_splits_on_substring tier (tags : gset string) tag :
  ((exists pre post, tagFQN tag = pre +:+ "Tier" +:+ post) ->
   tier_step (tier, tags) tag = (Some (tagFQN tag), tags))
  /\ ((forall pre post, tagFQN tag <> pre +:+ "Tier" +:+ post) ->
      tier_step (tier, tags) tag = (tier, {[tagFQN tag]} ∪ tags)).
Proof.
  unfold tier_step.
  destruct (str_in "Tier" (tagFQN tag)) eqn:Hin; split.
  - reflexivity.
  - intros Hnone. apply str_in_iff_substring in Hin.
    destruct Hin as (pre & post & Heq). destruct (Hnone pre post Heq).
  - intros Hsome. apply str_in_iff_substring in Hsome. congruence.
  - reflexivity.
Qed.

Lemma tier_step_splits_on_substring_witness :
  tier_step (Some "Tier.Tier1", ∅) (Sample.label "Frontier.Tiered")
  = (Some "Frontier.Tiered", ∅).
Proof.
  apply (proj1 (tier_step_splits_on_substring (Some "Tier.Tier1") ∅
                  (Sample.label "Frontier.Tiered"))).
  exists "Frontier.", "ed". reflexivity.
Defined.

(** ** When a builder returns *)

Lemma create_es_doc_lookup_failure self now e ts :
  own_tags e = Some ts ->
  lookups_succeed self e = false ->
  create_es_doc self now e = Raise APIError.
Proof.
  intros Htags Hlook. destruct e as [table|topic|dashboard|pipeline]; simpl in *.
  - unfold _create_table_es_doc, get_by_id. rewrite Htags. simpl.
    rewrite fold_tier_step, _parse_columns_spec. simpl.
    destruct (find_Database _ _) as [db|]; simpl; [|reflexivity].
    destruct (find_DatabaseService _ _) as [svc|]; simpl; [|reflexivity].
    apply bool_decide_eq_false in Hlook. contradict Hlook. eauto.
  - unfold _create_topic_es_doc, get_by_id.
    destruct (find_MessagingService _ _) as [svc|]; simpl; [|reflexivity].
    apply bool_decide_eq_false in Hlook. contradict Hlook. eauto.
  - unfold _create_dashboard_es_doc, get_by_id.
    destruct (find_DashboardService _ _) as [svc|]; simpl; [|reflexivity].
    rewrite Htags. simpl. rewrite fold_tier_step. simpl.
    rewrite _get_charts_spec.
    destruct (charts_of self dashboard) as [charts|]; simpl; [|reflexivity].
    rewrite bool_decide_eq_true_2 in Hlook by eauto.
    rewrite bool_decide_eq_true_2 in Hlook by eauto. discriminate.
  - unfold _create_pipeline_es_doc, get_by_id.
    destruct (find_PipelineService _ _) as [svc|]; simpl; [|reflexivity].
    apply bool_decide_eq_false in Hlook. contradict Hlook. eauto.
Qed.

(** X2: a builder returns a document only if the entity's tag list is set
    and every lookup it makes in the metadata store finds its entity;
    without either it raises. *)
Theorem create_es_doc_returns_only_if self now e doc :
  create_es_doc self now e = Ok doc ->
  lookups_succeed self e = true /\ is_Some (own_tags e).
Proof.
  intros Hdoc.
  destruct (own_tags e) as [ts|] eqn:Htags.
  - split; [|eauto].
    destruct (lookups_succeed self e) eqn:Hlook; [reflexivity|].
    rewrite (create_es_doc_lookup_failure self now e ts Htags Hlook) in Hdoc.
    discriminate.
  - destruct (create_es_doc_unset_tags self now e Htags) as [H|H];
      rewrite H in Hdoc; discriminate.
Qed.

Lemma create_es_doc_returns_only_if_witness :
  lookups_succeed Sample.sink (EDashboard (Cases.sales_board (Some ["chart-1"]))) = true
  /\ is_Some (own_tags (EDashboard (Cases.sales_board (Some ["chart-1"])))).
Proof.
  eapply (create_es_doc_returns_only_if Sample.sink Sample.clock
            (EDashboard (Cases.sales_board (Some ["chart-1"])))).
  vm_compute. reflexivity.
Defined.

(** X3: with the tag list set, a lookup that finds nothing makes the
    builder raise [APIError]; [write_record] then raises the same and
    leaves the sink as it was: no index call, no name added to the
    status. *)
Theorem failed_lookup_raises_api_error self now e ts :
  own_tags e = Some ts ->
  lookups_succeed self e = false ->
  create_es_doc self now e = Raise APIError
  /\ (write_record now (Indexed e) self) = (Raise APIError, self).
Proof.
  intros Htags Hlook.
  pose proof (create_es_doc_lookup_failure self now e ts Htags Hlook) as H.
  split; [exact H|].
  rewrite write_record_indexed, H. reflexivity.
Qed.

Lemma failed_lookup_raises_api_error_witness :
  create_es_doc Sample.sink Sample.clock (ETopic Cases.unknown_service_topic) = Raise APIError
  /\ write_record Sample.clock (Indexed (ETopic Cases.unknown_service_topic)) Sample.sink
     = (Raise APIError, Sample.sink).
Proof.
  apply (failed_lookup_raises_api_error Sample.sink Sample.clock
           (ETopic Cases.unknown_service_topic) []).
  - reflexivity.
  - reflexivity.
Defined.

(** ** Tier and tags *)

(** X4: the tier of a document is the name of one of the entity's own tags
    and holds "Tier"; a document has no tier exactly when no tag of the
    entity's own list holds "Tier". *)
Theorem tier_is_an_own_tier_like_tag self now e ts :
  lookups_succeed self e = true ->
  own_tags e = Some ts ->
  exists doc,
    create_es_doc self now e = Ok doc
    /\ (forall x, doc_tier doc = Some x ->
                  x ∈ fqns ts /\ exists pre post, x = pre +:+ "Tier" +:+ post)
    /\ (doc_tier doc = None <->
        forall tag pre post, tag ∈ ts -> tagFQN tag <> pre +:+ "Tier" +:+ post).
Proof.
  intros Hlook Htags.
  destruct (create_es_doc_spec self now e ts Hlook Htags)
    as (doc & Hdoc & _ & Htier & _).
  exists doc. split; [exact Hdoc|]. rewrite Htier. split.
  - intros x Hx. apply last_elem_of in Hx. split.
    + unfold tier_tags, fqns in *. rewrite list_elem_of_In, in_map_iff in *.
      destruct Hx as (tag & Hfqn & Hin). apply filter_In in Hin.
      exists tag. tauto.
    + apply str_in_iff_substring, (tier_tags_tier_like ts). exact Hx.
  - rewrite last_None. unfold tier_tags, fqns. split.
    + intros Hnil tag pre post Hin Heq.
      assert (Hlike : tier_like tag = true).
      { apply str_in_iff_substring. eauto. }
      assert (Hmem : In (tagFQN tag) (map tagFQN (List.filter tier_like ts))).
      { apply in_map, filter_In. split; [apply list_elem_of_In, Hin|exact Hlike]. }
      rewrite Hnil in Hmem. exact Hmem.
    + intros Hnone.
      destruct (List.filter tier_like ts) as [|tag rest] eqn:Hf; [reflexivity|].
      assert (Hin : In tag (List.filter tier_like ts)) by (rewrite Hf; left; reflexivity).
      apply filter_In in Hin. destruct Hin as [Hin Hlike].
      apply str_in_iff_substring in Hlike. destruct Hlike as (pre & post & Heq).
      exfalso. apply (Hnone tag pre post); [apply list_elem_of_In, Hin|exact Heq].
Qed.

Lemma tier_is_an_own_tier_like_tag_witness :
  exists doc,
    create_es_doc Sample.sink Sample.clock
      (ETopic (Sample.clicks (Some ["PII.Sensitive"; "Frontier.Tiered"]))) = Ok doc
    /\ (forall x, doc_tier doc = Some x ->
                  x ∈ fqns (map Sample.label ["PII.Sensitive"; "Frontier.Tiered"])
                  /\ exists pre post, x = pre +:+ "Tier" +:+ post)
    /\ (doc_tier doc = None <->
        forall tag pre post,
          tag ∈ map Sample.label ["PII.Sensitive"; "Frontier.Tiered"] ->
          tagFQN tag <> pre +:+ "Tier" +:+ post).
Proof.
  apply (tier_is_an_own_tier_like_tag Sample.sink Sample.clock
           (ETopic (Sample.clicks (Some ["PII.Sensitive"; "Frontier.Tiered"])))
           (map Sample.label ["PII.Sensitive"; "Frontier.Tiered"])).
  - reflexivity.
  - reflexivity.
Defined.

(** X5: the tags of a document hold no name twice; they hold every own
    tag without "Tier", every tag of a table's columns and every tag of a
    dashboard's charts, and nothing but own plain tags and tags carried
    below the entity. *)
Theorem tags_have_no_duplicates_and_lose_nothing self now e ts :
  lookups_succeed self e = true ->
  own_tags e = Some ts ->
  exists doc,
    create_es_doc self now e = Ok doc
    /\ NoDup (doc_tags doc)
    /\ (forall x, x ∈ plain_tags ts -> x ∈ doc_tags doc)
    /\ (forall table x, e = ETable table ->
                        x ∈ column_tags (Table.columns table) -> x ∈ doc_tags doc)
    /\ (forall dashboard charts x,
          e = EDashboard dashboard -> charts_of self dashboard = Some charts ->
          x ∈ chart_tags charts -> x ∈ doc_tags doc)
    /\ (forall x, x ∈ doc_tags doc -> x ∈ plain_tags ts \/ x ∈ carried_below self e).
Proof.
  intros Hlook Htags.
  destruct (create_es_doc_spec self now e ts Hlook Htags)
    as (doc & Hdoc & _ & _ & Hdtags & _).
  exists doc. split; [exact Hdoc|]. rewrite Hdtags.
  split; [apply NoDup_elements|].
  split; [|split; [|split]].
  - intros x Hx. apply elem_of_tag_list. auto.
  - intros table x -> Hx. apply elem_of_tag_list. auto.
  - intros dashboard charts x -> Hcharts Hx. apply elem_of_tag_list. right.
    simpl. rewrite Hcharts. exact Hx.
  - intros x Hx. apply elem_of_tag_list in Hx. destruct Hx as [Hx|Hx]; [auto|].
    right. apply merged_below_carried. exact Hx.
Qed.

Lemma tags_have_no_duplicates_and_lose_nothing_witness :
  exists doc,
    create_es_doc Sample.sink Sample.clock
      (ETable (Sample.orders (Some ["PII.Sensitive"; "Tier.Tier1"])
                 [Sample.column "total" ["PII.Sensitive"; "Finance.Amount"] None]))
    = Ok doc
    /\ NoDup (doc_tags doc)
    /\ (forall x, x ∈ plain_tags (map Sample.label ["PII.Sensitive"; "Tier.Tier1"]) ->
                  x ∈ doc_tags doc)
    /\ (forall table x,
          ETable (Sample.orders (Some ["PII.Sensitive"; "Tier.Tier1"])
                    [Sample.column "total" ["PII.Sensitive"; "Finance.Amount"] None])
          = ETable table ->
          x ∈ column_tags (Table.columns table) -> x ∈ doc_tags doc)
    /\ (forall dashboard charts x,
          ETable (Sample.orders (Some ["PII.Sensitive"; "Tier.Tier1"])
                    [Sample.column "total" ["PII.Sensitive"; "Finance.Amount"] None])
          = EDashboard dashboard ->
          charts_of Sample.sink dashboard = Some charts ->
          x ∈ chart_tags charts -> x ∈ doc_tags doc)
    /\ (forall x, x ∈ doc_tags doc ->
                  x ∈ plain_tags (map Sample.label ["PII.Sensitive"; "Tier.Tier1"])
                  \/ x ∈ carried_below Sample.sink
                         (ETable (Sample.orders (Some ["PII.Sensitive"; "Tier.Tier1"])
                                    [Sample.column "total"
                                       ["PII.Sensitive"; "Finance.Amount"] None]))).
Proof.
  apply (tags_have_no_duplicates_and_lose_nothing Sample.sink Sample.clock
           (ETable (Sample.orders (Some ["PII.Sensitive"; "Tier.Tier1"])
                      [Sample.column "total" ["PII.Sensitive"; "Finance.Amount"] None]))
           (map Sample.label ["PII.Sensitive"; "Tier.Tier1"])).
  - reflexivity.
  - reflexivity.
Defined.

(** ** Fields copied through *)

(** X6: an owner shows in the document as its identifier, and the
    followers as their identifiers, as many and in the order of the
    entity's list. *)
Theorem owner_and_followers_are_their_ids self now e ts :
  lookups_succeed self e = true ->
  own_tags e = Some ts ->
  exists doc,
    create_es_doc self now e = Ok doc
    /\ (forall o, own_owner e = Some o -> doc_owner doc = ref_id o)
    /\ doc_followers doc = map ref_id (default [] (own_followers e))
    /\ length (doc_followers doc) = length (default [] (own_followers e)).
Proof.
  intros Hlook Htags.
  destruct (create_es_doc_spec self now e ts Hlook Htags)
    as (doc & Hdoc & _ & _ & _ & Howner & Hfollowers & _).
  exists doc. split; [exact Hdoc|].
  rewrite Howner, Hfollowers, follower_ids_spec. split; [|split].
  - intros o ->. reflexivity.
  - reflexivity.
  - apply length_map.
Qed.

Lemma owner_and_followers_are_their_ids_witness :
  exists doc,
    create_es_doc Sample.sink Sample.clock (ETopic Cases.owned_topic) = Ok doc
    /\ (forall o, own_owner (ETopic Cases.owned_topic) = Some o -> doc_owner doc = ref_id o)
    /\ doc_followers doc = map ref_id (default [] (own_followers (ETopic Cases.owned_topic)))
    /\ length (doc_followers doc)
       = length (default [] (own_followers (ETopic Cases.owned_topic))).
Proof.
  apply (owner_and_followers_are_their_ids Sample.sink Sample.clock
           (ETopic Cases.owned_topic) []).
  - reflexivity.
  - reflexivity.
Defined.

(** X7: the service name and type of a document are those of the service
    entity the store resolves (for a table, the service of the database
    found under the table's database reference, not the reference's own
    name); the category is the fixed label of the kind, the identifier,
    description and fully-qualified name are the entity's, and the
    timestamp is the clock reading of the build. *)
Theorem service_fields_are_resolved self now e ts :
  lookups_succeed self e = true ->
  own_tags e = Some ts ->
  exists doc svc,
    create_es_doc self now e = Ok doc
    /\ service_of self e = Some svc
    /\ doc_service doc = Service.name svc
    /\ doc_service_type doc = Service.serviceType svc
    /\ doc_service_category doc = category_of (kind_of e)
    /\ doc_id doc = entity_id e
    /\ doc_description doc = entity_description e
    /\ doc_fqdn doc = entity_fqdn e
    /\ doc_timestamp doc = now.
Proof.
  intros Hlook Htags. destruct e as [table|topic|dashboard|pipeline]; simpl in *.
  - unfold _create_table_es_doc, get_by_id. rewrite Htags. simpl.
    rewrite fold_tier_step, _parse_columns_spec. simpl.
    destruct (find_Database _ _) as [db|]; [|discriminate]. simpl.
    apply bool_decide_eq_true in Hlook. destruct Hlook as [svc Hsvc].
    rewrite Hsvc. simpl.
    destruct (last (tier_tags ts)); do 2 eexists; repeat split; reflexivity.
  - unfold _create_topic_es_doc, get_by_id.
    apply bool_decide_eq_true in Hlook. destruct Hlook as [svc Hsvc].
    rewrite Hsvc. simpl. rewrite Htags. simpl. rewrite fold_tier_step. simpl.
    destruct (last (tier_tags ts)); do 2 eexists; repeat split; reflexivity.
  - unfold _create_dashboard_es_doc, get_by_id.
    apply andb_true_iff in Hlook. destruct Hlook as [Hsvc Hcharts].
    apply bool_decide_eq_true in Hsvc. destruct Hsvc as [svc Hsvc].
    apply bool_decide_eq_true in Hcharts. destruct Hcharts as [charts Hcharts].
    rewrite Hsvc. simpl. rewrite Htags. simpl. rewrite fold_tier_step. simpl.
    rewrite _get_charts_spec, Hcharts. simpl. rewrite fold_chart_step. simpl.
    destruct (last (tier_tags ts)); do 2 eexists; repeat split; reflexivity.
  - unfold _create_pipeline_es_doc, get_by_id.
    apply bool_decide_eq_true in Hlook. destruct Hlook as [svc Hsvc].
    rewrite Hsvc. simpl. rewrite Htags. simpl. rewrite fold_tier_step. simpl.
    rewrite fold_task_step. simpl.
    destruct (last (tier_tags ts)); do 2 eexists; repeat split; reflexivity.
Qed.

Lemma service_fields_are_resolved_witness :
  exists doc svc,
    create_es_doc Sample.sink Sample.clock (ETable (Sample.orders (Some []) [])) = Ok doc
    /\ service_of Sample.sink (ETable (Sample.orders (Some []) [])) = Some svc
    /\ doc_service doc = Service.name svc
    /\ doc_service_type doc = Service.serviceType svc
    /\ doc_service_category doc = category_of (kind_of (ETable (Sample.orders (Some []) [])))
    /\ doc_id doc = entity_id (ETable (Sample.orders (Some []) []))
    /\ doc_description doc = entity_description (ETable (Sample.orders (Some []) []))
    /\ doc_fqdn doc = entity_fqdn (ETable (Sample.orders (Some []) []))
    /\ doc_timestamp doc = Sample.clock.
Proof.
  apply (service_fields_are_resolved Sample.sink Sample.clock
           (ETable (Sample.orders (Some []) [])) []).
  - reflexivity.
  - reflexivity.
Defined.

(** ** What each kind adds *)

Lemma length_omap_le {A B : Type} (f : A -> option B) (l : list A) :
  length (omap f l) <= length l.
Proof.
  induction l as [|x l IH]; csimpl; [lia|].
  destruct (f x); csimpl; lia.
Qed.

(** X8: a table document lists the column names and the descriptions that
    [_parse_columns] yields from empty accumulators, never more
    descriptions than names and none for a table without columns; its
    database is the name of the database entity found, and the table type
    and the usage statistics are copied from the table. *)
Theorem table_document_columns self now table ts db :
  Table.tags table = Some ts ->
  find_Database (metadata self) (ref_id (Table.database table)) = Some db ->
  is_Some (find_DatabaseService (metadata self) (ref_id (Database.service db))) ->
  exists doc,
    _create_table_es_doc self now table = Ok doc
    /\ TableESDocument.column_names doc
       = map listed_name (forest_nodes None (Table.columns table))
    /\ TableESDocument.column_descriptions doc
       = omap node_description (forest_nodes None (Table.columns table))
    /\ length (TableESDocument.column_descriptions doc)
       <= length (TableESDocument.column_names doc)
    /\ (Table.columns table = [] -> TableESDocument.column_names doc = [])
    /\ TableESDocument.database doc = Database.name db
    /\ TableESDocument.table_name doc = Table.name table
    /\ TableESDocument.table_type doc = Table.tableType table
    /\ TableESDocument.schema_description doc = None
    /\ (TableESDocument.daily_stats doc, TableESDocument.weekly_stats doc,
        TableESDocument.monthly_stats doc)
       = (count (dailyStats (Table.usageSummary table)),
          count (weeklyStats (Table.usageSummary table)),
          count (monthlyStats (Table.usageSummary table)))
    /\ (TableESDocument.daily_percentile_rank doc,
        TableESDocument.weekly_percentile_rank doc,
        TableESDocument.monthly_percentile_rank doc)
       = (percentileRank (dailyStats (Table.usageSummary table)),
          percentileRank (weeklyStats (Table.usageSummary table)),
          percentileRank (monthlyStats (Table.usageSummary table))).
Proof.
  intros Htags Hdb [svc Hsvc].
  unfold _create_table_es_doc, get_by_id. rewrite Htags. simpl.
  rewrite fold_tier_step, _parse_columns_spec. simpl.
  rewrite Hdb. simpl. rewrite Hsvc. simpl.
  eexists. split; [reflexivity|]. simpl.
  repeat split; try reflexivity.
  - rewrite length_map. apply length_omap_le.
  - intros ->. reflexivity.
Qed.

Lemma table_document_columns_witness :
  exists doc,
    _create_table_es_doc Sample.sink Sample.clock
      (Sample.orders (Some []) Cases.two_level_forest) = Ok doc
    /\ TableESDocument.column_names doc
       = map listed_name (forest_nodes None Cases.two_level_forest)
    /\ TableESDocument.column_descriptions doc
       = omap node_description (forest_nodes None Cases.two_level_forest)
    /\ length (TableESDocument.column_descriptions doc)
       <= length (TableESDocument.column_names doc)
    /\ (Cases.two_level_forest = [] -> TableESDocument.column_names doc = [])
    /\ TableESDocument.database doc = "sales"
    /\ TableESDocument.table_name doc = "orders"
    /\ TableESDocument.table_type doc = Some "Regular"
    /\ TableESDocument.schema_description doc = None
    /\ (TableESDocument.daily_stats doc, TableESDocument.weekly_stats doc,
        TableESDocument.monthly_stats doc)
       = (0%Z, 0%Z, 0%Z)
    /\ (TableESDocument.daily_percentile_rank doc,
        TableESDocument.weekly_percentile_rank doc,
        TableESDocument.monthly_percentile_rank doc)
       = (0%float, 0%float, 0%float).
Proof.
  apply (table_document_columns Sample.sink Sample.clock
           (Sample.orders (Some []) Cases.two_level_forest) []
           {| Database.name := "sales";
              Database.service := Sample.reference "svc-1" "mysql" |}).
  - reflexivity.
  - reflexivity.
  - vm_compute. eauto.
Defined.

Lemma childless_nodes parent column :
  childless column = true -> column_nodes parent column = [(parent, column)].
Proof.
  destruct column as [n d ts [[|c cs]|]]; simpl; [reflexivity|discriminate|reflexivity].
Qed.

Lemma childless_paths prefix column :
  childless column = true ->
  column_paths prefix column
  = [match prefix with
     | Some p => p +:+ "." +:+ Column.name column
     | None => Column.name column
     end].
Proof.
  destruct column as [n d ts [[|c cs]|]]; simpl; [reflexivity|discriminate|reflexivity].
Qed.

Lemma childless_children_names parent children :
  forallb childless children = true ->
  map listed_name (flat_map (column_nodes (Some parent)) children)
  = flat_map (column_paths (Some parent)) children.
Proof.
  induction children as [|c cs IH]; simpl; [reflexivity|].
  intros H. apply andb_true_iff in H. destruct H as [Hc Hcs].
  rewrite (childless_nodes _ _ Hc), (childless_paths _ _ Hc). simpl.
  rewrite (IH Hcs). reflexivity.
Qed.

(** X9: for a forest in which no column has grandchildren, the names
    [_parse_columns] appends are the full dotted paths from the root. *)
Theorem two_level_names_are_full_paths columns ns ds ts :
  forallb two_levels columns = true ->
  (_parse_columns columns None (ns, ds, ts)).1.1 = ns ++ spec_column_names columns.
Proof.
  intros Hflat. rewrite _parse_columns_spec. simpl. f_equal.
  unfold forest_nodes, spec_column_names.
  induction columns as [|c cs IH]; simpl; [reflexivity|].
  simpl in Hflat. apply andb_true_iff in Hflat. destruct Hflat as [Hc Hcs].
  rewrite map_app, (IH Hcs). f_equal.
  destruct c as [n d tags [children|]]; simpl; [|reflexivity].
  unfold two_levels in Hc. simpl in Hc.
  unfold listed_name at 1. simpl. f_equal.
  apply childless_children_names. exact Hc.
Qed.

Lemma two_level_names_are_full_paths_witness :
  (_parse_columns Cases.two_level_forest None ([], [], ∅)).1.1
  = [] ++ spec_column_names Cases.two_level_forest.
Proof.
  apply (two_level_names_are_full_paths Cases.two_level_forest [] [] ∅).
  reflexivity.
Defined.

(** X10: [_get_charts] returns the charts the store has under the
    references, one per reference and in their order; it raises [APIError]
    as soon as the store lacks one of them, and returns the empty list for
    no references, be the field [None] or empty. *)
Theorem get_charts_in_reference_order self chart_refs :
  (forall charts,
     _get_charts self chart_refs = Ok charts <->
     mapM (fun chart_ref => find_Chart (metadata self) (ref_id chart_ref))
       (default [] chart_refs) = Some charts)
  /\ (forall charts,
        _get_charts self chart_refs = Ok charts ->
        length charts = length (default [] chart_refs))
  /\ (forall chart_ref,
        chart_ref ∈ default [] chart_refs ->
        find_Chart (metadata self) (ref_id chart_ref) = None ->
        _get_charts self chart_refs = Raise APIError)
  /\ (chart_refs = None \/ chart_refs = Some [] -> _get_charts self chart_refs = Ok []).
Proof.
  assert (Hspec : _get_charts self chart_refs =
                  match mapM (fun chart_ref => find_Chart (metadata self) (ref_id chart_ref))
                          (default [] chart_refs) with
                  | Some found => Ok found
                  | None => Raise APIError
                  end).
  { unfold _get_charts. destruct chart_refs as [[|r refs]|]; try reflexivity.
    apply (get_charts_loop self (r :: refs) []). }
  rewrite Hspec. split; [|split; [|split]].
  - intros charts. destruct (mapM _ _); split; congruence.
  - intros charts. destruct (mapM _ _) as [found|] eqn:Hfound; [|discriminate].
    intros [= <-]. apply length_mapM in Hfound. symmetry. exact Hfound.
  - intros chart_ref Hin Hnone.
    destruct (mapM _ _) as [found|] eqn:Hfound; [|reflexivity].
    apply mapM_Some_1 in Hfound.
    apply list_elem_of_lookup in Hin. destruct Hin as [i Hi].
    destruct (Forall2_lookup_l _ _ _ _ _ Hfound Hi) as (c & _ & Hc).
    congruence.
  - intros [->| ->]; reflexivity.
Qed.

Lemma get_charts_in_reference_order_witness :
  _get_charts Sample.sink
    (Some [Sample.reference "chart-1" "Revenue"; Sample.reference "chart-9" "Gone"])
  = Raise APIError.
Proof.
  apply (proj1 (proj2 (proj2 (get_charts_in_reference_order Sample.sink
           (Some [Sample.reference "chart-1" "Revenue"; Sample.reference "chart-9" "Gone"]))))
           (Sample.reference "chart-9" "Gone")).
  - simpl. right. left.
  - reflexivity.
Defined.

(** X11: a dashboard document names its charts by their display names in
    the order of the references, one name per reference, lists the
    descriptions of those that have one, holds every tag of every chart
    among its tags, and copies the usage counts. *)
Theorem dashboard_document_charts self now dashboard ts charts :
  Dashboard.tags dashboard = Some ts ->
  is_Some (find_DashboardService (metadata self) (ref_id (Dashboard.service dashboard))) ->
  charts_of self dashboard = Some charts ->
  exists doc,
    _create_dashboard_es_doc self now dashboard = Ok doc
    /\ DashboardESDocument.chart_names doc = map Chart.displayName charts
    /\ DashboardESDocument.chart_descriptions doc = omap Chart.description charts
    /\ length (DashboardESDocument.chart_names doc)
       = length (default [] (Dashboard.charts dashboard))
    /\ (forall x, x ∈ chart_tags charts -> x ∈ DashboardESDocument.tags doc)
    /\ DashboardESDocument.dashboard_name doc = Dashboard.displayName dashboard
    /\ (DashboardESDocument.daily_stats doc, DashboardESDocument.weekly_stats doc,
        DashboardESDocument.monthly_stats doc)
       = (count (dailyStats (Dashboard.usageSummary dashboard)),
          count (weeklyStats (Dashboard.usageSummary dashboard)),
          count (monthlyStats (Dashboard.usageSummary dashboard))).
Proof.
  intros Htags [svc Hsvc] Hcharts.
  unfold _create_dashboard_es_doc, get_by_id. rewrite Hsvc. simpl.
  rewrite Htags. simpl. rewrite fold_tier_step. simpl.
  rewrite _get_charts_spec, Hcharts. simpl. rewrite fold_chart_step. simpl.
  eexists. split; [reflexivity|]. simpl.
  repeat split; try reflexivity.
  - rewrite length_map. unfold charts_of in Hcharts.
    apply length_mapM in Hcharts. symmetry. exact Hcharts.
  - intros x Hx. apply elem_of_elements. set_solver.
Qed.

Lemma dashboard_document_charts_witness :
  exists doc,
    _create_dashboard_es_doc Sample.sink Sample.clock
      (Cases.sales_board (Some ["chart-1"; "chart-1"])) = Ok doc
    /\ DashboardESDocument.chart_names doc = ["Revenue"; "Revenue"]
    /\ DashboardESDocument.chart_descriptions doc
       = ["Revenue by month"; "Revenue by month"]
    /\ length (DashboardESDocument.chart_names doc) = 2
    /\ (forall x, x ∈ chart_tags [Sample.revenue_chart; Sample.revenue_chart] ->
                  x ∈ DashboardESDocument.tags doc)
    /\ DashboardESDocument.dashboard_name doc = "Sales"
    /\ (DashboardESDocument.daily_stats doc, DashboardESDocument.weekly_stats doc,
        DashboardESDocument.monthly_stats doc)
       = (0%Z, 0%Z, 0%Z).
Proof.
  apply (dashboard_document_charts Sample.sink Sample.clock
           (Cases.sales_board (Some ["chart-1"; "chart-1"]))
           [Sample.label "Sales.Team"]
           [Sample.revenue_chart; Sample.revenue_chart]).
  - reflexivity.
  - vm_compute. eauto.
  - reflexivity.
Defined.

(** X12: a pipeline document names its tasks by their display names in
    the order of the task list, one name per task, and lists the
    descriptions of those that have one. *)
Theorem pipeline_document_tasks self now pipeline ts :
  Pipeline.tags pipeline = Some ts ->
  is_Some (find_PipelineService (metadata self) (ref_id (Pipeline.service pipeline))) ->
  exists doc,
    _create_pipeline_es_doc self now pipeline = Ok doc
    /\ PipelineESDocument.task_names doc
       = map Task.displayName (Pipeline.tasks pipeline)
    /\ PipelineESDocument.task_descriptions doc
       = omap Task.description (Pipeline.tasks pipeline)
    /\ length (PipelineESDocument.task_names doc) = length (Pipeline.tasks pipeline)
    /\ length (PipelineESDocument.task_descriptions doc)
       <= length (PipelineESDocument.task_names doc)
    /\ PipelineESDocument.pipeline_name doc = Pipeline.displayName pipeline.
Proof.
  intros Htags [svc Hsvc].
  unfold _create_pipeline_es_doc, get_by_id. rewrite Hsvc. simpl.
  rewrite Htags. simpl. rewrite fold_tier_step. simpl.
  rewrite fold_task_step. simpl.
  eexists. split; [reflexivity|]. simpl.
  repeat split; try reflexivity.
  - apply length_map.
  - rewrite length_map. apply length_omap_le.
Qed.

Lemma pipeline_document_tasks_witness :
  exists doc,
    _create_pipeline_es_doc Sample.sink Sample.clock Cases.two_step = Ok doc
    /\ PipelineESDocument.task_names doc = ["Extract"; "Load"]
    /\ PipelineESDocument.task_descriptions doc = ["Pull the raw rows"]
    /\ length (PipelineESDocument.task_names doc) = 2
    /\ length (PipelineESDocument.task_descriptions doc)
       <= length (PipelineESDocument.task_names doc)
    /\ PipelineESDocument.pipeline_name doc = "Two steps".
Proof.
  apply (pipeline_document_tasks Sample.sink Sample.clock Cases.two_step []).
  - reflexivity.
  - vm_compute. eauto.
Defined.

(** ** Effects of a write *)


Lemma create_es_doc_metadata self self' now e :
  metadata self' = metadata self ->
  create_es_doc self' now e = create_es_doc self now e.
Proof.
  intros Hmd. destruct e as [table|topic|dashboard|pipeline]; simpl.
  - unfold _create_table_es_doc. rewrite Hmd. reflexivity.
  - unfold _create_topic_es_doc. rewrite Hmd. reflexivity.
  - unfold _create_dashboard_es_doc, _get_charts. rewrite Hmd. reflexivity.
  - unfold _create_pipeline_es_doc. rewrite Hmd. reflexivity.
Qed.

(** X14: the index call is keyed by the kind's index and the entity's
    identifier, so writing an entity and then one of the same kind and
    identifier leaves the stored documents as the second write alone would,
    while the status counts both writes. *)
Theorem rewrite_replaces_document self now1 now2 e1 e2 ts1 ts2 :
  kind_of e1 = kind_of e2 ->
  entity_id e1 = entity_id e2 ->
  lookups_succeed self e1 = true -> own_tags e1 = Some ts1 ->
  lookups_succeed self e2 = true -> own_tags e2 = Some ts2 ->
  exists doc2,
    create_es_doc self now2 e2 = Ok doc2
    /\ let after := (write_record now2 (Indexed e2)
                       (write_record now1 (Indexed e1) self).2).2 in
       documents (cluster (elasticsearch_client after))
       = <[(index_name_of (config self) (kind_of e2), entity_id e2) := doc2]>
           (documents (cluster (elasticsearch_client self)))
       /\ documents (cluster (elasticsearch_client after))
          = documents (cluster (elasticsearch_client
                                  (write_record now2 (Indexed e2) self).2))
       /\ status after = status self ++ [entity_name e1; entity_name e2].
Proof.
  intros Hkind Hid Hlook1 Htags1 Hlook2 Htags2.
  destruct (create_es_doc_spec self now1 e1 ts1 Hlook1 Htags1) as (doc1 & Hdoc1 & Hid1 & _).
  destruct (create_es_doc_spec self now2 e2 ts2 Hlook2 Htags2) as (doc2 & Hdoc2 & Hid2 & _).
  exists doc2. split; [exact Hdoc2|].
  rewrite (write_record_indexed self now1 e1), Hdoc1. simpl.
  rewrite !write_record_indexed.
  rewrite (create_es_doc_metadata self _ now2 e2) by reflexivity.
  rewrite Hdoc2. simpl.
  rewrite Hid1, Hid2, Hkind, Hid, <- app_assoc.
  split; [apply insert_insert_eq|]. split; [apply insert_insert_eq|reflexivity].
Qed.

Lemma rewrite_replaces_document_witness :
  exists doc2,
    create_es_doc Sample.sink Sample.clock
      (ETable (Sample.orders (Some ["Tier.Tier1"]) [])) = Ok doc2
    /\ let after := (write_record Sample.clock
                       (Indexed (ETable (Sample.orders (Some ["Tier.Tier1"]) [])))
                       (write_record Sample.clock
                          (Indexed (ETable (Sample.orders (Some []) [])))
                          Sample.sink).2).2 in
       documents (cluster (elasticsearch_client after))
       = <[("table_search_index", "table-1") := doc2]>
           (documents (cluster (elasticsearch_client Sample.sink)))
       /\ documents (cluster (elasticsearch_client after))
          = documents (cluster (elasticsearch_client
                                  (write_record Sample.clock
                                     (Indexed (ETable (Sample.orders (Some ["Tier.Tier1"]) [])))
                                     Sample.sink).2))
       /\ status after = status Sample.sink ++ ["orders"; "orders"].
Proof.
  apply (rewrite_replaces_document Sample.sink Sample.clock Sample.clock
           (ETable (Sample.orders (Some []) []))
           (ETable (Sample.orders (Some ["Tier.Tier1"]) []))
           [] [Sample.label "Tier.Tier1"]).
  - reflexivity.
  - reflexivity.
  - reflexivity.
  - reflexivity.
  - reflexivity.
  - reflexivity.
Defined.

(** ** More on the bootstrap *)

Section BootstrapMore.

Variable json_loads : string -> result json.
Variable json_dumps : json -> string.

(** X15: on an existing index without mappings, a template that does not
    parse, or parses to a dict without [mappings], or without [properties]
    under it, makes [_check_or_create_index] raise that error; whenever it
    raises there, the cluster is untouched and only the two reads were
    issued. *)
Theorem unusable_template_raises index_name es_mapping self m :
  indices (cluster (elasticsearch_client self)) !! index_name = Some m ->
  truthy m = false ->
  let run := _check_or_create_index json_loads json_dumps index_name es_mapping self in
  (forall err, json_loads es_mapping = Raise err -> run.1 = Raise err)
  /\ (forall d err,
        json_loads es_mapping = Ok d -> getitem d "mappings" = Raise err ->
        run.1 = Raise err)
  /\ (forall d ms err,
        json_loads es_mapping = Ok d -> getitem d "mappings" = Ok ms ->
        getitem ms "properties" = Raise err ->
        run.1 = Raise err)
  /\ (forall err, run.1 = Raise err ->
        cluster (elasticsearch_client run.2) = cluster (elasticsearch_client self)
        /\ calls (elasticsearch_client run.2)
           = calls (elasticsearch_client self)
             ++ [IndicesExists index_name; IndicesGetMapping]).
Proof.
  intros Hpresent Hempty. simpl.
  rewrite (check_or_create_present _ _ _ _ _ _ Hpresent). simpl. rewrite Hempty.
  split; [|split; [|split]].
  - intros err ->. reflexivity.
  - intros d err -> ->. reflexivity.
  - intros d ms err -> -> ->. reflexivity.
  - intros err.
    destruct (json_loads es_mapping) as [d|];
      [destruct (getitem d "mappings") as [ms|];
       [destruct (getitem ms "properties") as [props|]|]|];
      simpl; try discriminate;
      intros _; rewrite <- app_assoc; split; reflexivity.
Qed.

Lemma admin_only_ret : admin_only (mret tt).
Proof.
  intros self. simpl. repeat (split; [reflexivity|]).
  exists []. rewrite app_nil_r. split; reflexivity.
Qed.

Lemma admin_only_bind (m k : M unit) :
  admin_only m -> admin_only k -> admin_only (m ;; k).
Proof.
  intros Hm Hk self. specialize (Hm self).
  unfold mbind, M_bind. simpl in *.
  destruct (m self) as [[[]|e] self1]; simpl in *; [|exact Hm].
  specialize (Hk self1). simpl in Hk.
  destruct Hm as (Hc1 & Hm1 & Hs1 & Hd1 & new1 & Hcalls1 & Hnew1).
  destruct Hk as (Hc2 & Hm2 & Hs2 & Hd2 & new2 & Hcalls2 & Hnew2).
  repeat (split; [congruence|]).
  exists (new1 ++ new2). split.
  - rewrite Hcalls2, Hcalls1, app_assoc. reflexivity.
  - rewrite forallb_app, Hnew1, Hnew2. reflexivity.
Qed.

Lemma admin_only_when (b : bool) (m : M unit) :
  admin_only m -> admin_only (when b m).
Proof.
  intros Hm. destruct b; simpl; [exact Hm|apply admin_only_ret].
Qed.

Lemma admin_only_check index_name es_mapping :
  admin_only (_check_or_create_index json_loads json_dumps index_name es_mapping).
Proof.
  intros self.
  destruct (indices (cluster (elasticsearch_client self)) !! index_name) as [m|] eqn:Hix.
  - rewrite (check_or_create_present _ _ _ _ _ _ Hix). simpl.
    destruct (truthy m);
      [|destruct (json_loads es_mapping) as [d|];
        [destruct (getitem d "mappings") as [ms|];
         [destruct (getitem ms "properties") as [props|]|]|]];
      simpl; repeat (split; [reflexivity|]);
      eexists; (split; [rewrite <- ?app_assoc; reflexivity|reflexivity]).
  - rewrite (check_or_create_absent _ _ _ _ _ Hix). simpl.
    repeat (split; [reflexivity|]).
    eexists. split; [rewrite <- app_assoc; reflexivity|reflexivity].
Qed.

Variable table_mapping topic_mapping dashboard_mapping pipeline_mapping : string.

(** X17: the constructor keeps the configuration and the metadata client
    it was given, starts with an empty status, and issues no index call:
    the stored documents are those of the cluster it found. *)
Theorem constructor_writes_no_document config metadata server :
  let self := (__init__ json_loads json_dumps table_mapping topic_mapping
                 dashboard_mapping pipeline_mapping config metadata server).2 in
  ElasticsearchSink.config self = config
  /\ ElasticsearchSink.metadata self = metadata
  /\ status self = []
  /\ documents (cluster (elasticsearch_client self)) = documents server
  /\ forallb (fun c => negb (is_index_call c)) (calls (elasticsearch_client self)) = true.
Proof.
  unfold __init__.
  match goal with
  | |- context [ ?prog {| ElasticsearchSink.config := config;
                          ElasticsearchSink.metadata := metadata;
                          elasticsearch_client := ?es; status := [] |} ] =>
      assert (Hrun : admin_only prog)
        by (repeat apply admin_only_bind; apply admin_only_when, admin_only_check);
      specialize (Hrun {| ElasticsearchSink.config := config;
                          ElasticsearchSink.metadata := metadata;
                          elasticsearch_client := es; status := [] |})
  end.
  simpl in Hrun. destruct Hrun as (Hc & Hm & Hs & Hd & new & Hcalls & Hnew).
  simpl. rewrite Hcalls. auto.
Qed.

(** X18: on a cluster with none of the four indices, with every flag set
    and four different index names, the constructor returns and has issued
    exactly an existence check and a create call per kind, in the order
    table, topic, dashboard, pipeline, each with the kind's own template;
    afterwards the four indices exist. *)
Theorem fresh_cluster_gets_four_indices config metadata server :
  flag_set (index_tables config) = true ->
  flag_set (index_topics config) = true ->
  flag_set (index_dashboards config) = true ->
  flag_set (index_pipelines config) = true ->
  NoDup [table_index_name config; topic_index_name config;
         dashboard_index_name config; pipeline_index_name config] ->
  (forall k, indices server !! index_name_of config k = None) ->
  let out := __init__ json_loads json_dumps table_mapping topic_mapping
               dashboard_mapping pipeline_mapping config metadata server in
  out.1 = Ok tt
  /\ calls (elasticsearch_client out.2)
     = [IndicesExists (table_index_name config);
        IndicesCreate (table_index_name config) table_mapping;
        IndicesExists (topic_index_name config);
        IndicesCreate (topic_index_name config) topic_mapping;
        IndicesExists (dashboard_index_name config);
        IndicesCreate (dashboard_index_name config) dashboard_mapping;
        IndicesExists (pipeline_index_name config);
        IndicesCreate (pipeline_index_name config) pipeline_mapping]
  /\ forall k, is_Some (indices (cluster (elasticsearch_client out.2))
                          !! index_name_of config k).
Proof.
  intros Ht Hp Hd Hi Hnames Hfresh.
  pose proof (Hfresh KTable) as Hft. pose proof (Hfresh KTopic) as Hfp.
  pose proof (Hfresh KDashboard) as Hfd. pose proof (Hfresh KPipeline) as Hfi.
  simpl in Hft, Hfp, Hfd, Hfi.
  apply NoDup_cons in Hnames. destruct Hnames as [Hn1 Hnames].
  apply NoDup_cons in Hnames. destruct Hnames as [Hn2 Hnames].
  apply NoDup_cons in Hnames. destruct Hnames as [Hn3 _].
  apply not_elem_of_cons in Hn1 as [Htp Hn1].
  apply not_elem_of_cons in Hn1 as [Htd Hn1].
  apply not_elem_of_cons in Hn1 as [Hti _].
  apply not_elem_of_cons in Hn2 as [Hpd Hn2].
  apply not_elem_of_cons in Hn2 as [Hpi _].
  apply not_elem_of_cons in Hn3 as [Hdi _].
  unfold __init__. rewrite Ht, Hp, Hd, Hi. simpl.
  unfold mbind, M_bind.
  rewrite check_or_create_absent by exact Hft.
  rewrite check_or_create_absent
    by (simpl; rewrite lookup_insert_ne by exact Htp; exact Hfp).
  rewrite check_or_create_absent
    by (simpl; rewrite !lookup_insert_ne by congruence; exact Hfd).
  rewrite check_or_create_absent
    by (simpl; rewrite !lookup_insert_ne by congruence; exact Hfi).
  simpl. split; [reflexivity|]. split; [reflexivity|].
  intros []; simpl.
  - rewrite !lookup_insert_ne by congruence. rewrite lookup_insert_eq. eauto.
  - rewrite !lookup_insert_ne by congruence. rewrite lookup_insert_eq. eauto.
  - rewrite !lookup_insert_ne by congruence. rewrite lookup_insert_eq. eauto.
  - rewrite lookup_insert_eq. eauto.
Qed.

(** X19: when the table index exists without mappings and the table
    template does not parse, the constructor raises that error after the
    two reads for the table index: the other kinds are not bootstrapped,
    though enabled, and the cluster is untouched. *)
Theorem constructor_stops_at_first_failure config metadata server m err :
  flag_set (index_tables config) = true ->
  indices server !! table_index_name config = Some m ->
  truthy m = false ->
  json_loads table_mapping = Raise err ->
  let out := __init__ json_loads json_dumps table_mapping topic_mapping
               dashboard_mapping pipeline_mapping config metadata server in
  out.1 = Raise err
  /\ calls (elasticsearch_client out.2)
     = [IndicesExists (table_index_name config); IndicesGetMapping]
  /\ cluster (elasticsearch_client out.2) = server.
Proof.
  intros Hon Hpresent Hempty Hbad.
  unfold __init__. rewrite Hon. simpl.
  unfold mbind, M_bind.
  erewrite check_or_create_present by (simpl; exact Hpresent). simpl.
  rewrite Hempty, Hbad. simpl. auto.
Qed.

End BootstrapMore.


Lemma unusable_template_raises_witness :
  (_check_or_create_index Cases.rejecting_loads Sample.dumps "table_search_index"
     Sample.template (Sample.sink_with Sample.defaults Cases.empty_table_index)).1
  = Raise JSONDecodeError
  /\ (_check_or_create_index Cases.bare_loads Sample.dumps "table_search_index"
        Sample.template (Sample.sink_with Sample.defaults Cases.empty_table_index)).1
     = Raise KeyError.
Proof.
  split.
  - apply (proj1 (unusable_template_raises Cases.rejecting_loads Sample.dumps
                    "table_search_index" Sample.template
                    (Sample.sink_with Sample.defaults Cases.empty_table_index)
                    (JObj []) ltac:(vm_compute; reflexivity) ltac:(reflexivity))).
    reflexivity.
  - apply (proj1 (proj2 (proj2 (unusable_template_raises Cases.bare_loads Sample.dumps
                    "table_search_index" Sample.template
                    (Sample.sink_with Sample.defaults Cases.empty_table_index)
                    (JObj []) ltac:(vm_compute; reflexivity) ltac:(reflexivity))))
             (JObj [("settings", JObj []); ("mappings", JObj [])]) (JObj [])).
    + reflexivity.
    + reflexivity.
    + reflexivity.
Defined.

Lemma fresh_cluster_gets_four_indices_witness :
  (__init__ Sample.loads Sample.dumps Sample.template Sample.template
     Sample.template Sample.template Sample.defaults Sample.store
     Sample.fresh_cluster).1 = Ok tt
  /\ calls (elasticsearch_client
              (__init__ Sample.loads Sample.dumps Sample.template Sample.template
                 Sample.template Sample.template Sample.defaults Sample.store
                 Sample.fresh_cluster).2)
     = [IndicesExists "table_search_index";
        IndicesCreate "table_search_index" Sample.template;
        IndicesExists "topic_search_index";
        IndicesCreate "topic_search_index" Sample.template;
        IndicesExists "dashboard_search_index";
        IndicesCreate "dashboard_search_index" Sample.template;
        IndicesExists "pipeline_search_index";
        IndicesCreate "pipeline_search_index" Sample.template]
  /\ forall k,
       is_Some (indices (cluster (elasticsearch_client
                  (__init__ Sample.loads Sample.dumps Sample.template Sample.template
                     Sample.template Sample.template Sample.defaults Sample.store
                     Sample.fresh_cluster).2))
                !! index_name_of Sample.defaults k).
Proof.
  apply (fresh_cluster_gets_four_indices Sample.loads Sample.dumps
           Sample.template Sample.template Sample.template Sample.template
           Sample.defaults Sample.store Sample.fresh_cluster).
  - reflexivity.
  - reflexivity.
  - reflexivity.
  - reflexivity.
  - apply (bool_decide_unpack _). vm_compute. exact I.
  - intros []; reflexivity.
Defined.

Lemma constructor_stops_at_first_failure_witness :
  (__init__ Cases.rejecting_loads Sample.dumps Sample.template Sample.template
     Sample.template Sample.template Sample.defaults Sample.store
     Cases.empty_table_index).1 = Raise JSONDecodeError
  /\ calls (elasticsearch_client
              (__init__ Cases.rejecting_loads Sample.dumps Sample.template
                 Sample.template Sample.template Sample.template Sample.defaults
                 Sample.store Cases.empty_table_index).2)
     = [IndicesExists "table_search_index"; IndicesGetMapping]
  /\ cluster (elasticsearch_client
                (__init__ Cases.rejecting_loads Sample.dumps Sample.template
                   Sample.template Sample.template Sample.template Sample.defaults
                   Sample.store Cases.empty_table_index).2)
     = Cases.empty_table_index.
Proof.
  apply (constructor_stops_at_first_failure Cases.rejecting_loads Sample.dumps
           Sample.template Sample.template Sample.template Sample.template
           Sample.defaults Sample.store Cases.empty_table_index
           (JObj []) JSONDecodeError).
  - reflexivity.
  - vm_compute. reflexivity.
  - reflexivity.
  - reflexivity.
Defined.
